(** * CloudBolt pricing calculator: the pricing engine of [calculatorapp.py]

    The engine is the class [PricingCalculator] together with the module
    constant [TIERS].  Its three methods are translated below, statement
    by statement, over an abstract number type:

    - Python evaluates the engine on [int] and [float] values.  The
      arithmetic the methods use (literals, [+], [-], [*], [<=], [<],
      [==], [min], [max]) is collected in the class [Arith]; the methods
      are written once against it.
    - [Exact] instantiates it with the rationals [Q]: the decimal
      literals of the source stand for the numbers they spell.  The
      general theorems are proved there.
    - [Binary64] instantiates it with the kernel's IEEE 754 doubles,
      which are Python's [float].  The scenarios are re-run there.

    The bounds of a tier are Python [int]s and are kept as [Z].

    [generate_comparison_chart] and [main] follow the engine: the figure
    as the data it is built from, the page as the values [main] hands to
    the display calls for given values of its two sliders. *)

From Stdlib Require Import String.
From Stdlib Require Import ZArith QArith Qminmax List Bool Lia Lqa.
From Stdlib Require Import Floats Uint63.
Import ListNotations.

(** ** Exceptions and results *)

(** The exceptions the engine can raise: [self.tiers[-1]] on an empty
    list, and [list.index] on an absent element. *)
Inductive exn : Type :=
| IndexError
| ValueError.

Inductive outcome (A : Type) : Type :=
| Returns (a : A)
| Raises (e : exn).

Arguments Returns {A} a.
Arguments Raises {A} e.

Definition bind {A B : Type} (c : outcome A) (k : A -> outcome B) : outcome B :=
  match c with
  | Returns a => k a
  | Raises e => Raises e
  end.

Declare Scope py_scope.
Delimit Scope py_scope with py.
Notation "x <- c ;; k" := (bind c (fun x => k))
  (at level 61, c at next level, right associativity) : py_scope.

(** ** Numbers *)

Class Arith (num : Type) : Type := {
  of_int : Z -> num;                  (* an [int] used as a number *)
  literal : Z -> positive -> num;     (* the decimal literal [m / d] *)
  add : num -> num -> num;
  sub : num -> num -> num;
  mul : num -> num -> num;
  leb : num -> num -> bool;           (* [x <= y] *)
  ltb : num -> num -> bool;           (* [x < y] *)
  eqb : num -> num -> bool            (* [x == y] *)
}.

Section Engine.

Context {num : Type} {A : Arith num}.

(** The builtin [min(a, b)] keeps [a] unless [b < a]; [max(a, b)] keeps
    [a] unless [b > a]. *)
Definition py_min (a b : num) : num := if ltb b a then b else a.
Definition py_max (a b : num) : num := if ltb a b then b else a.

(** ** Tiers *)

(** One entry of [TIERS]: [{"lower": .., "upper": .., "rate": ..}]. *)
Record tier : Type := Tier {
  lower : Z;
  upper : Z;
  rate : num
}.

(** Equality of two tier dictionaries, key by key. *)
Definition tier_eqb (s t : tier) : bool :=
  (lower s =? lower t)%Z && (upper s =? upper t)%Z && eqb (rate s) (rate t).

Definition TIERS : list tier := [
  Tier 0 125000 (literal 330 10000);
  Tier 125001 250000 (literal 315 10000);
  Tier 250001 416667 (literal 297 10000);
  Tier 416668 833333 (literal 264 10000);
  Tier 833334 1666667 (literal 231 10000);
  Tier 1666668 2500000 (literal 215 10000);
  Tier 2500001 3333333 (literal 198 10000);
  Tier 3333334 4166667 (literal 182 10000);
  Tier 4166668 6250000 (literal 165 10000);
  Tier 6250001 8333333 (literal 132 10000);
  Tier 8333334 12500000 (literal 116 10000);
  Tier 12500001 16666667 (literal 107 10000);
  Tier 16666668 20833333 (literal 100 10000);
  Tier 20833334 25000000 (literal 95 10000);
  Tier 25000001 29166667 (literal 91 10000);
  Tier 29166668 33333333 (literal 88 10000);
  Tier 33333334 41666667 (literal 84 10000);
  Tier 41666668 62500000 (literal 69 10000);
  Tier 62500001 83333333 (literal 62 10000);
  Tier 83333334 104166667 (literal 54 10000);
  Tier 104166668 125000000 (literal 50 10000);
  Tier 125000001 145833333 (literal 46 10000);
  Tier 145833334 166666667 (literal 43 10000);
  Tier 166666668 187500000 (literal 40 10000);
  Tier 187500001 208333333 (literal 38 10000);
  Tier 208333334 250000000 (literal 34 10000)
].

(** ** List operations of Python used by the engine *)

(** [l[i]] for [i >= 0]. *)
Definition subscript {T : Type} (l : list T) (i : nat) : outcome T :=
  match nth_error l i with
  | Some x => Returns x
  | None => Raises IndexError
  end.

(** [l[-1]]. *)
Definition subscript_last {T : Type} (l : list T) : outcome T :=
  match l with
  | [] => Raises IndexError
  | _ :: _ => subscript l (length l - 1)
  end.

(** [next((x for x in l if p(x)), default)]: the default is an argument
    of the call, evaluated by the caller before the search starts. *)
Definition next_or {T : Type} (p : T -> bool) (l : list T) (default : T) : T :=
  match find p l with
  | Some x => x
  | None => default
  end.

(** [l.index(x)]: the position of the first element equal to [x].
    (Python also accepts the element [x] itself before it compares; with
    rates that equal themselves, as all numbers but NaN do, that changes
    nothing.) *)
Fixpoint index_from (x : tier) (l : list tier) (i : nat) : outcome nat :=
  match l with
  | [] => Raises ValueError
  | y :: rest => if tier_eqb y x then Returns i else index_from x rest (S i)
  end.

Definition index (l : list tier) (x : tier) : outcome nat := index_from x l 0.

(** ** The class [PricingCalculator] *)

(** [df_tiers] is the [pandas.DataFrame] built from the list: one row per
    tier, kept here as the rows. *)
Record PricingCalculator : Type := {
  tiers : list tier;
  df_tiers : list tier
}.

(** [__init__]: two assignments, no check of any kind. *)
Definition init (tiers : list tier) : outcome PricingCalculator :=
  Returns {| tiers := tiers; df_tiers := tiers |}.

(** The [for tier in self.tiers] loop of [calculate_flex_price], with its
    two mutable locals; [break] leaves with the total reached so far. *)
Fixpoint flex_loop (l : list tier) (total remaining : num) : num :=
  match l with
  | [] => total
  | t :: rest =>
      if leb remaining (of_int 0) then total
      else
        let tier_spend := py_min remaining (of_int (upper t - lower t)) in
        flex_loop rest (add total (mul tier_spend (rate t)))
                  (sub remaining tier_spend)
  end.

Definition calculate_flex_price (self : PricingCalculator)
    (monthly_spend : num) : num :=
  let total := flex_loop (tiers self) (of_int 0) monthly_spend in
  if leb monthly_spend (of_int 125000)
  then py_max total (of_int 2500)
  else total.

Definition calculate_commit_price (self : PricingCalculator)
    (monthly_spend commit_amount : num) : outcome num :=
  if eqb commit_amount (of_int 0)
  then Returns (calculate_flex_price self monthly_spend)
  else
    (default <- subscript_last (tiers self) ;;
     let commit_tier :=
       next_or (fun t => leb commit_amount (of_int (upper t)))
               (tiers self) default in
     let commit_rate := rate commit_tier in
     let committed_amount := mul (py_min monthly_spend commit_amount) commit_rate in
     let overflow_amount :=
       if ltb commit_amount monthly_spend
       then calculate_flex_price self (sub monthly_spend commit_amount)
       else of_int 0 in
     Returns (add committed_amount overflow_amount))%py.

(** [monthly_spend >= tier["lower"] and monthly_spend <= tier["upper"]]. *)
Definition contains (x : num) (t : tier) : bool :=
  leb (of_int (lower t)) x && leb x (of_int (upper t)).

(** The result is one of the [upper] bounds, a Python [int]. *)
Definition recommend_commit_tier (self : PricingCalculator)
    (monthly_spend : num) : outcome Z :=
  (default <- subscript_last (tiers self) ;;
   let current_tier := next_or (contains monthly_spend) (tiers self) default in
   tier_index <- index (tiers self) current_tier ;;
   next_tier <- (if (tier_index <? length (tiers self) - 1)%nat
                 then (t <- subscript (tiers self) (tier_index + 1) ;;
                       Returns (Some t))
                 else Returns None) ;;
   match next_tier with
   | Some nt =>
       if ltb (mul (of_int (upper current_tier)) (literal 8 10)) monthly_spend
       then Returns (upper nt)
       else Returns (upper current_tier)
   | None => Returns (upper current_tier)
   end)%py.

End Engine.

Arguments tier num : clear implicits.
Arguments Tier {num} lower upper rate.
Arguments PricingCalculator num : clear implicits.

(** ** Exact arithmetic *)

#[export] Instance Exact : Arith Q := {
  of_int := inject_Z;
  literal := Qmake;
  add := Qplus;
  sub := Qminus;
  mul := Qmult;
  leb := Qle_bool;
  ltb := fun x y => negb (Qle_bool y x);
  eqb := Qeq_bool
}.

(** ** IEEE 754 doubles *)

(** An [int] as a double.  The conversion is exact up to 2^53, which
    covers every bound of the table and every spend the sliders of
    [main] produce; there Python's exact [int] arithmetic and the
    arithmetic on doubles agree. *)

Definition float_of_int (z : Z) : float :=
  if (z <? 0)%Z
  then PrimFloat.opp (PrimFloat.of_uint63 (Uint63.of_Z (- z)))
  else PrimFloat.of_uint63 (Uint63.of_Z z).

(** A decimal literal denotes the double nearest to it, which is what
    the correctly rounded quotient of its numerator and denominator is. *)
#[export] Instance Binary64 : Arith float := {
  of_int := float_of_int;
  literal := fun m d => PrimFloat.div (float_of_int m) (float_of_int (Zpos d));
  add := PrimFloat.add;
  sub := PrimFloat.sub;
  mul := PrimFloat.mul;
  leb := PrimFloat.leb;
  ltb := PrimFloat.ltb;
  eqb := PrimFloat.eqb
}.

(** The calculator [main] builds: [PricingCalculator(TIERS)]. *)
Definition calculator {num : Type} {A : Arith num} : PricingCalculator num :=
  {| tiers := TIERS; df_tiers := TIERS |}.


(** ** The tier table invariants of the specification (section 3) *)

Section Invariants.

Context {num : Type} {A : Arith num}.

(** A condition on every pair of neighbours of the table. *)
Fixpoint adjacent (r : tier num -> tier num -> bool) (l : list (tier num)) : bool :=
  match l with
  | a :: (b :: _) as rest => r a b && adjacent r rest
  | _ => true
  end.

Definition nonempty (l : list (tier num)) : bool :=
  match l with [] => false | _ :: _ => true end.

Definition starts_at_zero (l : list (tier num)) : bool :=
  match l with [] => false | t :: _ => (lower t =? 0)%Z end.

Definition sorted_ascending : list (tier num) -> bool :=
  adjacent (fun a b => (lower a <? lower b)%Z).

Definition contiguous : list (tier num) -> bool :=
  adjacent (fun a b => (lower b =? upper a + 1)%Z).

Definition bounds_ordered : list (tier num) -> bool :=
  forallb (fun t => (lower t <? upper t)%Z).

Definition rates_decreasing : list (tier num) -> bool :=
  adjacent (fun a b => ltb (rate b) (rate a)).

(** What construction is specified to check (section 4.1). *)
Definition valid_table (l : list (tier num)) : bool :=
  nonempty l && starts_at_zero l && sorted_ascending l && contiguous l
  && bounds_ordered l.

End Invariants.

(** * The specification's operations

    Written from the words of the specification, in exact arithmetic,
    to be compared with the methods above. *)

Local Open Scope Q_scope.

(** ** [flexPrice] in the words of the specification (section 4.2) *)

(** Walk the table with [remaining]; a tier bills
    [min(remaining, upper - lower)] at its rate; stop once [remaining]
    is used up or the table ends. *)
Fixpoint accumulated (table : list (tier Q)) (remaining : Q) : Q :=
  match table with
  | [] => 0
  | t :: rest =>
      if Qle_bool remaining 0 then 0
      else
        let tierCapacity := inject_Z (upper t - lower t) in
        let tierSpend := Qmin remaining tierCapacity in
        tierSpend * rate t + accumulated rest (remaining - tierSpend)
  end.

(** The minimum invoice of 2500 applies up to a spend of 125,000. *)
Definition flexPrice (table : list (tier Q)) (spend : Q) : Q :=
  if Qle_bool spend 125000
  then Qmax (accumulated table spend) 2500
  else accumulated table spend.

(** ** [recommendCommitTier] in the words of the specification (4.4) *)

(** The position of the first tier whose range contains the spend. *)
Fixpoint position_of (spend : Q) (table : list (tier Q)) : option nat :=
  match table with
  | [] => None
  | t :: rest =>
      if Qle_bool (inject_Z (lower t)) spend && Qle_bool spend (inject_Z (upper t))
      then Some 0%nat
      else option_map S (position_of spend rest)
  end.

(** The current tier is that one, or the last tier of the table. *)
Definition current_position (spend : Q) (table : list (tier Q)) : nat :=
  match position_of spend table with
  | Some i => i
  | None => (length table - 1)%nat
  end.

(** The next tier is the one that follows in the table; it is
    recommended when the spend is above 80% of the current upper bound.
    An empty table has no current tier. *)
Definition recommendCommitTier (table : list (tier Q)) (spend : Q) : option Z :=
  let i := current_position spend table in
  match nth_error table i with
  | None => None
  | Some currentTier =>
      match nth_error table (S i) with
      | Some nextTier =>
          if Qlt_le_dec (inject_Z (upper currentTier) * 0.8) spend
          then Some (upper nextTier)
          else Some (upper currentTier)
      | None => Some (upper currentTier)
      end
  end.

(** An absent result of the specification, read as the failure of the
    method on an empty table. *)
Definition as_outcome {T : Type} (o : option T) : outcome T :=
  match o with
  | Some x => Returns x
  | None => Raises IndexError
  end.

(** The commit tier of section 4.3: the first tier, in table order,
    whose upper bound reaches the commitment; the last tier of the table
    when no upper bound does. *)
Inductive commit_tier_of (c : Q) : list (tier Q) -> tier Q -> Prop :=
| commit_tier_here (t : tier Q) (rest : list (tier Q)) :
    c <= inject_Z (upper t) -> commit_tier_of c (t :: rest) t
| commit_tier_later (t : tier Q) (rest : list (tier Q)) (u : tier Q) :
    inject_Z (upper t) < c -> commit_tier_of c rest u ->
    commit_tier_of c (t :: rest) u
| commit_tier_last (t : tier Q) :
    inject_Z (upper t) < c -> commit_tier_of c [t] t.

(** Every tier has a width and a rate that are not negative. *)
Definition billable (l : list (tier Q)) : bool :=
  forallb (fun t => (lower t <=? upper t)%Z && Qle_bool 0 (rate t)) l.

(** * The chart and the page

    [generate_comparison_chart] and [main] compute with the three methods
    and hand the results to plotly and streamlit.  The figure is kept as
    the data it is built from; a page is kept as the values [main] passes
    to the display calls, as a function of the values read from its two
    sliders.  The formatting of the tier table for display is not
    modelled. *)

Section App.

Context {num : Type} {A : Arith num}.

(** [go.Bar(x=.., y=.., marker_color=..)]. *)
Record Bar : Type := {
  bar_x : list string;
  bar_y : list num;
  marker_color : list string
}.

(** The keywords given to [update_layout]. *)
Record Layout : Type := {
  title : string;
  yaxis_title : string;
  showlegend : bool;
  height : Z
}.

Record Figure : Type := {
  data : list Bar;
  layout : option Layout
}.

(** [go.Figure()], [fig.add_trace(..)], [fig.update_layout(..)]. *)
Definition empty_figure : Figure := {| data := []; layout := None |}.

Definition add_trace (fig : Figure) (trace : Bar) : Figure :=
  {| data := data fig ++ [trace]; layout := layout fig |}.

Definition update_layout (fig : Figure) (l : Layout) : Figure :=
  {| data := data fig; layout := Some l |}.

Definition generate_comparison_chart (self : PricingCalculator num)
    (monthly_spend commit_amount : num) : outcome Figure :=
  let flex_price := calculate_flex_price self monthly_spend in
  (commit_price <- calculate_commit_price self monthly_spend commit_amount ;;
   let fig := empty_figure in
   let fig := add_trace fig
     {| bar_x := ["Flex Pricing"%string; "Commit Pricing"%string];
        bar_y := [flex_price; commit_price];
        marker_color := ["rgb(55, 83, 109)"%string; "rgb(26, 118, 255)"%string] |} in
   let fig := update_layout fig
     {| title := "Pricing Comparison"%string;
        yaxis_title := "Monthly Cost ($)"%string;
        showlegend := false;
        height := 400 |} in
   Returns fig)%py.

(** [st.slider(.., min_value=.., max_value=.., value=.., step=..)]: the
    range it offers and the value it starts with. *)
Record Slider : Type := {
  min_value : Z;
  max_value : Z;
  value : Z;
  step : Z
}.

(** The values a slider can return: those of its range, on its grid. *)
Definition offers (s : Slider) (v : Z) : bool :=
  ((min_value s <=? v) && (v <=? max_value s)
   && ((v - min_value s) mod step s =? 0))%Z.

Definition spend_slider : Slider :=
  {| min_value := 50000; max_value := 250000000; value := 500000; step := 10000 |}.

(** [max(a, b)] and [int(..)] on two [int]s. *)
Definition int_max (a b : Z) : Z := if (a <? b)%Z then b else a.

Definition commit_slider (monthly_spend recommended_tier : Z) : Slider :=
  {| min_value := 0; max_value := int_max monthly_spend recommended_tier;
     value := 0; step := 10000 |}.

(** What one run of [main] shows. *)
Record Page : Type := {
  commit_range : Slider;            (* the second slider *)
  flex_metric : num;                (* st.metric("Flex Pricing", ..) *)
  commit_metric : num;              (* st.metric("Commit Pricing", ..) *)
  success : option num;             (* st.success, the savings, if shown *)
  info_recommended : Z;             (* st.info, the recommended tier *)
  info_spend : Z;                   (* st.info, the monthly spend *)
  chart : Figure;                   (* st.plotly_chart *)
  tier_rows : list (tier num)       (* st.dataframe, before formatting *)
}.

(** [main], given the values the two sliders return. *)
Definition main (monthly_spend commit_amount : Z) : outcome Page :=
  (calculator <- init TIERS ;;
   recommended_tier <- recommend_commit_tier calculator (of_int monthly_spend) ;;
   let flex_price := calculate_flex_price calculator (of_int monthly_spend) in
   commit_price <- calculate_commit_price calculator (of_int monthly_spend)
                                          (of_int commit_amount) ;;
   let savings := sub flex_price commit_price in
   fig <- generate_comparison_chart calculator (of_int monthly_spend)
                                    (of_int commit_amount) ;;
   Returns {| commit_range := commit_slider monthly_spend recommended_tier;
              flex_metric := flex_price;
              commit_metric := commit_price;
              success := if ltb (of_int 0) savings then Some savings else None;
              info_recommended := recommended_tier;
              info_spend := monthly_spend;
              chart := fig;
              tier_rows := TIERS |})%py.

End App.

Arguments Bar num : clear implicits.
Arguments Figure num : clear implicits.
Arguments Page num : clear implicits.

(** A check of [p] at [start], [start + stride], ..., [count] values in
    all, by iteration. *)
Definition all_from (p : Z -> bool) (start stride : Z) (count : positive) : bool :=
  snd (Pos.iter (fun st => ((fst st + stride)%Z, snd st && p (fst st)))
                (start, true) count).

(** ** Quantities of a table used in the proofs *)

(** The width a tier bills at most, and the widths and the full bills of
    a table added up. *)
Definition capacity (t : tier Q) : Q := inject_Z (upper t - lower t).

Fixpoint capacity_sum (l : list (tier Q)) : Q :=
  match l with
  | [] => 0
  | t :: rest => capacity t + capacity_sum rest
  end.

Fixpoint full_bill (l : list (tier Q)) : Q :=
  match l with
  | [] => 0
  | t :: rest => capacity t * rate t + full_bill rest
  end.

(** No rate of the table is above [r]; none is below [r]. *)
Definition rates_at_most (r : Q) (l : list (tier Q)) : bool :=
  forallb (fun t => Qle_bool (rate t) r) l.

Definition rates_at_least (r : Q) (l : list (tier Q)) : bool :=
  forallb (fun t => Qle_bool r (rate t)) l.

(** A check along a table: for every tier [t], with [p] the tiers up to
    and including [t], no tier of [p] has a lower rate than [t], and
    filling every tier of [p] costs at least [upper t] at the rate of
    [t]. *)
Fixpoint prefixes_ok (done todo : list (tier Q)) : bool :=
  match todo with
  | [] => true
  | t :: rest =>
      let p := done ++ [t] in
      rates_at_least (rate t) p
      && Qle_bool (rate t * inject_Z (upper t)) (flex_loop p 0 (capacity_sum p))
      && prefixes_ok p rest
  end.

(** ** Checks along the spend slider, on doubles *)

(** At one value of the spend slider, with the calculator on doubles and
    the exact one: the recommendation on doubles is the exact one; one
    step up the slider, if there is one, does not lower the flex price
    on doubles; and the flex price on doubles minus itself is not above
    0. *)
Definition slider_check (cd : PricingCalculator float) (cq : PricingCalculator Q)
    (monthly_spend : Z) : bool :=
  let flex_price := calculate_flex_price (A := Binary64) cd (of_int monthly_spend) in
  match recommend_commit_tier (A := Binary64) cd (of_int monthly_spend),
        recommend_commit_tier (A := Exact) cq (of_int monthly_spend) with
  | Returns a, Returns b => (a =? b)%Z
  | _, _ => false
  end
  && (if (monthly_spend + step spend_slider <=? max_value spend_slider)%Z
      then PrimFloat.leb flex_price
             (calculate_flex_price (A := Binary64) cd
                (of_int (monthly_spend + step spend_slider)))
      else true)
  && negb (ltb (Arith := Binary64) (of_int 0) (sub flex_price flex_price)).

(** * Proofs *)

Lemma init_TIERS {num : Type} {A : Arith num} : init TIERS = Returns calculator.
Proof. reflexivity. Qed.

(** The decimal literals of the source, read as doubles: the rates of
    the table and the factor 0.8 are the doubles nearest to the decimals
    written, which Rocq's own reading of the literals gives too. *)
#[local] Set Warnings "-inexact-float".

Lemma binary64_literals :
  map rate (TIERS (A := Binary64))
  = [0.0330; 0.0315; 0.0297; 0.0264; 0.0231; 0.0215; 0.0198; 0.0182;
     0.0165; 0.0132; 0.0116; 0.0107; 0.0100; 0.0095; 0.0091; 0.0088;
     0.0084; 0.0069; 0.0062; 0.0054; 0.0050; 0.0046; 0.0043; 0.0040;
     0.0038; 0.0034]%float
  /\ literal (Arith := Binary64) 8 10 = 0.8%float.
Proof. split; vm_compute; reflexivity. Qed.

#[local] Set Warnings "inexact-float".

(** ** Facts of exact arithmetic *)

Lemma leb_le (x y : Q) : leb x y = true <-> x <= y.
Proof. apply Qle_bool_iff. Qed.

Lemma leb_gt (x y : Q) : leb x y = false <-> y < x.
Proof.
  change (leb x y) with (Qle_bool x y). split; intros H.
  - apply Qnot_le_lt. intros L. apply Qle_bool_iff in L. congruence.
  - destruct (Qle_bool x y) eqn:E; [ | reflexivity ].
    apply Qle_bool_iff in E. exfalso. exact (Qlt_not_le _ _ H E).
Qed.

Lemma ltb_lt (x y : Q) : ltb x y = true <-> x < y.
Proof.
  change (ltb x y) with (negb (leb y x)).
  rewrite negb_true_iff. apply leb_gt.
Qed.

Lemma ltb_ge (x y : Q) : ltb x y = false <-> y <= x.
Proof.
  change (ltb x y) with (negb (leb y x)).
  rewrite negb_false_iff. apply leb_le.
Qed.

Lemma eqb_eq (x y : Q) : eqb x y = true <-> x == y.
Proof. apply Qeq_bool_iff. Qed.

(** Python's [min] and [max] select the same argument as [Qmin] and
    [Qmax] do. *)
Lemma py_min_Qmin (a b : Q) : py_min a b = Qmin a b.
Proof.
  unfold py_min, Qmin, GenericMinMax.gmin.
  destruct (Qcompare_spec a b) as [E | L | G].
  - assert (H : ltb b a = false) by (apply ltb_ge; rewrite E; apply Qle_refl).
    now rewrite H.
  - assert (H : ltb b a = false) by (apply ltb_ge; now apply Qlt_le_weak).
    now rewrite H.
  - assert (H : ltb b a = true) by now apply ltb_lt.
    now rewrite H.
Qed.

Lemma py_max_Qmax (a b : Q) : py_max a b = Qmax a b.
Proof.
  unfold py_max, Qmax, GenericMinMax.gmax.
  destruct (Qcompare_spec a b) as [E | L | G].
  - assert (H : ltb a b = false) by (apply ltb_ge; rewrite E; apply Qle_refl).
    now rewrite H.
  - assert (H : ltb a b = true) by now apply ltb_lt.
    now rewrite H.
  - assert (H : ltb a b = false) by (apply ltb_ge; now apply Qlt_le_weak).
    now rewrite H.
Qed.

(** The loop adds to its running total what the specification
    accumulates from the tiers still to come. *)
Lemma flex_loop_accumulated (l : list (tier Q)) :
  forall total remaining : Q,
    flex_loop l total remaining == total + accumulated l remaining.
Proof.
  induction l as [ | t rest IH]; intros total remaining; simpl.
  - ring.
  - change (inject_Z 0) with 0.
    destruct (Qle_bool remaining 0).
    + ring.
    + rewrite IH, py_min_Qmin. ring.
Qed.

(** A negative amount never enters the loop body. *)
Lemma flex_loop_negative (l : list (tier Q)) (total remaining : Q) :
  remaining < 0 -> flex_loop l total remaining = total.
Proof.
  intros H. destruct l as [ | t rest]; cbn [flex_loop]; [ reflexivity | ].
  assert (E : leb remaining (of_int 0) = true)
    by (apply leb_le, Qlt_le_weak, H).
  now rewrite E.
Qed.

(** On doubles: an amount below zero is below every non-negative bound
    of the source ([-inf] included; a NaN is not below zero). *)
Lemma float_negative_leb (x : float) (k : Z) :
  PrimFloat.ltb x 0 = true ->
  Prim2SF (float_of_int k) = S754_zero false \/
  (exists m e, Prim2SF (float_of_int k) = S754_finite false m e) ->
  PrimFloat.leb x (float_of_int k) = true.
Proof.
  rewrite FloatAxioms.ltb_spec, FloatAxioms.leb_spec. intros H K.
  replace (Prim2SF 0) with (S754_zero false) in H by reflexivity.
  destruct K as [K | (m & e & K)]; rewrite K; clear K;
    destruct (Prim2SF x) as [s | s | | s m' e'];
    try destruct s; try discriminate H; reflexivity.
Qed.

(** ** The flex price *)

(** C1: for every spend (negative ones included), [calculate_flex_price]
    is the tier accumulation of section 4.2: the table is walked in order
    with [remaining = spend], each tier bills
    [min(remaining, upper - lower)] at its rate until [remaining] is used
    up or the table ends, and the result is [max(accumulated, 2500)] when
    [spend <= 125000] and the accumulated total otherwise.  In particular
    the price of 50000 is 2500 and the price of 200000 is 6487.5, in
    exact arithmetic and on doubles. *)
Theorem calculate_flex_price_accumulates :
  (forall (self : PricingCalculator Q) (spend : Q),
      calculate_flex_price self spend == flexPrice (tiers self) spend)
  /\ calculate_flex_price calculator 50000 == 2500
  /\ calculate_flex_price calculator 200000 == 6487.5
  /\ calculate_flex_price (A := Binary64) calculator (of_int 50000) = 2500%float
  /\ calculate_flex_price (A := Binary64) calculator (of_int 200000) = 6487.5%float.
Proof.
  split; [ | repeat split; vm_compute; reflexivity ].
  intros self spend. unfold calculate_flex_price, flexPrice.
  change (leb spend (of_int 125000)) with (Qle_bool spend 125000).
  cbv zeta. rewrite py_max_Qmax.
  assert (E : flex_loop (tiers self) (of_int 0) spend
              == accumulated (tiers self) spend).
  { rewrite flex_loop_accumulated. change (of_int 0) with 0. ring. }
  destruct (Qle_bool spend 125000).
  - change (of_int 2500) with 2500. now rewrite E.
  - exact E.
Qed.

(** C10: a negative spend never enters the loop body, so the loop
    leaves its total at 0; the floor branch is taken because the spend
    is at most 125000, and [max(0, 2500)] is returned: the price of
    every negative spend is exactly 2500. *)
Theorem calculate_flex_price_negative (self : PricingCalculator Q) (spend : Q) :
  spend < 0 ->
  flex_loop (tiers self) 0 spend = 0
  /\ calculate_flex_price self spend = 2500.
Proof.
  intros H. split.
  - now apply flex_loop_negative.
  - unfold calculate_flex_price. cbv zeta.
    change (of_int 0) with 0. rewrite (flex_loop_negative _ _ _ H).
    assert (E : leb spend (of_int 125000) = true).
    { apply leb_le. apply Qlt_le_weak, Qlt_trans with (1 := H). reflexivity. }
    rewrite E. reflexivity.
Qed.

Lemma calculate_flex_price_negative_witness :
  flex_loop (tiers calculator) 0 (-1) = 0
  /\ calculate_flex_price calculator (-1) = 2500.
Proof. apply (calculate_flex_price_negative calculator (-1)). reflexivity. Defined.

(** The same on doubles, for every table and every double below zero. *)
Theorem binary64_negative_spend_price
    (self : PricingCalculator float) (spend : float) :
  PrimFloat.ltb spend 0 = true ->
  calculate_flex_price (A := Binary64) self spend = 2500%float.
Proof.
  intros H. unfold calculate_flex_price. cbv zeta.
  assert (L : flex_loop (A := Binary64) (tiers self) (of_int 0) spend = 0%float).
  { destruct (tiers self) as [ | t rest]; cbn [flex_loop]; [ reflexivity | ].
    change (leb spend (of_int 0)) with (PrimFloat.leb spend (float_of_int 0)).
    rewrite (float_negative_leb spend 0 H) by (left; reflexivity).
    reflexivity. }
  rewrite L.
  change (leb spend (of_int 125000))
    with (PrimFloat.leb spend (float_of_int 125000)).
  rewrite (float_negative_leb spend 125000 H)
    by (right; eexists _, _; vm_compute; reflexivity).
  vm_compute. reflexivity.
Qed.

Lemma binary64_negative_spend_price_witness :
  calculate_flex_price (A := Binary64) calculator (-1)%float = 2500%float.
Proof.
  apply (binary64_negative_spend_price calculator (-1)%float).
  vm_compute. reflexivity.
Defined.

(** ** The commit price *)

(** C3: with a commitment of 0 the commit price is the flex price of the
    same spend, for every table and every spend, in exact arithmetic and
    on doubles. *)
Theorem calculate_commit_price_zero_commit :
  (forall (self : PricingCalculator Q) (spend : Q),
      calculate_commit_price self spend 0
      = Returns (calculate_flex_price self spend))
  /\ (forall (self : PricingCalculator float) (spend : float),
      calculate_commit_price (A := Binary64) self spend (of_int 0)
      = Returns (calculate_flex_price self spend)).
Proof. split; intros self spend; reflexivity. Qed.

(** ** The shipped table and its construction *)

(** C9: the shipped table has exactly 26 tiers, from a lower bound of 0
    to an upper bound of 250,000,000; it is non-empty, sorted ascending,
    contiguous ([tier[i+1].lower = tier[i].upper + 1] for every adjacent
    pair), every tier has [lower < upper], and the rates decrease
    strictly with the tier index, as decimals and as doubles. *)
Theorem TIERS_invariants :
  length (TIERS (A := Exact)) = 26%nat
  /\ hd_error (map lower (TIERS (A := Exact))) = Some 0%Z
  /\ last (map upper (TIERS (A := Exact))) 0%Z = 250000000%Z
  /\ nonempty (TIERS (A := Exact)) = true
  /\ starts_at_zero (TIERS (A := Exact)) = true
  /\ sorted_ascending (TIERS (A := Exact)) = true
  /\ contiguous (TIERS (A := Exact)) = true
  /\ bounds_ordered (TIERS (A := Exact)) = true
  /\ rates_decreasing (TIERS (A := Exact)) = true
  /\ rates_decreasing (TIERS (A := Binary64)) = true.
Proof. repeat split; vm_compute; reflexivity. Qed.

Lemma TIERS_valid : valid_table (TIERS (A := Exact)) = true.
Proof. vm_compute. reflexivity. Qed.

(** C8, as the specification states it, fails: the constructor accepts
    the empty table, which violates the first invariant. *)
Lemma init_accepts_invalid_table :
  ~ (forall (l : list (tier Q)) (self : PricingCalculator Q),
        init l = Returns self -> valid_table l = true).
Proof.
  intros H. specialize (H [] _ eq_refl). discriminate H.
Qed.

(** C8, amended: constructing a [PricingCalculator] checks nothing and
    raises nothing; every tier sequence, valid or not, is accepted and
    stored as it is given. *)
Theorem init_accepts_every_table {num : Type} {A : Arith num}
    (l : list (tier num)) :
  exists self : PricingCalculator num,
    init l = Returns self /\ tiers self = l /\ df_tiers self = l.
Proof. eexists. split; [ reflexivity | split; reflexivity ]. Qed.

Lemma literal_8_10 : literal 8 10 = 0.8.
Proof. reflexivity. Qed.

(** *** The search of the generator expression *)

Lemma position_of_find (spend : Q) (l : list (tier Q)) :
  match position_of spend l with
  | Some i => exists t, find (contains spend) l = Some t /\ nth_error l i = Some t
  | None => find (contains spend) l = None
  end.
Proof.
  induction l as [ | a l IH]; cbn [position_of find]; [ reflexivity | ].
  change (Qle_bool (inject_Z (lower a)) spend && Qle_bool spend (inject_Z (upper a)))
    with (contains spend a).
  destruct (contains spend a).
  - exists a. split; reflexivity.
  - destruct (position_of spend l) as [i | ]; cbn [option_map].
    + destruct IH as (t & F & N). exists t. split; assumption.
    + exact IH.
Qed.

Lemma subscript_last_cons {T : Type} (a : T) (l : list T) :
  exists d, subscript_last (a :: l) = Returns d
            /\ nth_error (a :: l) (length (a :: l) - 1) = Some d.
Proof.
  unfold subscript_last, subscript.
  destruct (nth_error (a :: l) (length (a :: l) - 1)) as [d | ] eqn:E.
  - exists d. split; reflexivity.
  - apply nth_error_None in E. cbn [length] in E. lia.
Qed.

Lemma current_position_next_or (spend : Q) (l : list (tier Q)) (d : tier Q) :
  nth_error l (length l - 1) = Some d ->
  nth_error l (current_position spend l) = Some (next_or (contains spend) l d).
Proof.
  intros D. unfold current_position, next_or.
  pose proof (position_of_find spend l) as P.
  destruct (position_of spend l) as [i | ].
  - destruct P as (t & F & N). now rewrite F.
  - now rewrite P.
Qed.

(** *** [list.index] on a table sorted by lower bound *)

Lemma tier_eqb_refl (t : tier Q) : tier_eqb t t = true.
Proof.
  unfold tier_eqb. rewrite !Z.eqb_refl. cbn [andb].
  apply eqb_eq. reflexivity.
Qed.

Lemma sorted_ascending_tail (a : tier Q) (l : list (tier Q)) :
  sorted_ascending (a :: l) = true -> sorted_ascending l = true.
Proof.
  unfold sorted_ascending. destruct l as [ | b l]; [ reflexivity | ].
  cbn [adjacent]. intros H. apply andb_true_iff in H. apply H.
Qed.

Lemma sorted_ascending_head (a : tier Q) (l : list (tier Q)) :
  sorted_ascending (a :: l) = true ->
  forall t, In t l -> (lower a < lower t)%Z.
Proof.
  revert a. induction l as [ | b l IH]; intros a Hs t I; [ destruct I | ].
  pose proof (sorted_ascending_tail _ _ Hs) as Hs'.
  unfold sorted_ascending in Hs. cbn [adjacent] in Hs.
  apply andb_true_iff in Hs. destruct Hs as [L _]. apply Z.ltb_lt in L.
  destruct I as [<- | I]; [ exact L | ].
  specialize (IH b Hs' t I). lia.
Qed.

Lemma index_from_nth_error (l : list (tier Q)) :
  sorted_ascending l = true ->
  forall (i k : nat) (t : tier Q),
    nth_error l i = Some t -> index_from t l k = Returns (k + i)%nat.
Proof.
  induction l as [ | a l IH]; intros Hs i k t N.
  - destruct i; discriminate N.
  - cbn [index_from]. destruct i as [ | i]; cbn [nth_error] in N.
    + injection N as ->. rewrite tier_eqb_refl. f_equal. lia.
    + assert (L : (lower a < lower t)%Z).
      { apply (sorted_ascending_head _ _ Hs). eapply nth_error_In, N. }
      assert (E : tier_eqb a t = false).
      { unfold tier_eqb. apply Z.lt_neq, Z.eqb_neq in L. now rewrite L. }
      rewrite E, (IH (sorted_ascending_tail _ _ Hs) i (S k) t N).
      f_equal. lia.
Qed.

(** *** The method against the specification *)

Lemma recommend_commit_tier_refines (self : PricingCalculator Q) (spend : Q) :
  sorted_ascending (tiers self) = true ->
  recommend_commit_tier self spend
  = as_outcome (recommendCommitTier (tiers self) spend).
Proof.
  destruct self as [l df]. cbn [tiers]. intros Hs.
  unfold recommend_commit_tier, recommendCommitTier. cbn [tiers].
  destruct l as [ | a l']; [ reflexivity | ].
  destruct (subscript_last_cons a l') as (d & -> & D). cbn [bind].
  pose proof (current_position_next_or spend _ d D) as C.
  set (l := a :: l') in *.
  set (cur := next_or (contains spend) l d) in *.
  set (cp := current_position spend l) in *.
  unfold index. rewrite (index_from_nth_error l Hs cp 0%nat cur C).
  cbn [bind Nat.add]. rewrite C. cbv zeta.
  destruct (Nat.ltb_spec cp (length l - 1)) as [Lt | Ge].
  - unfold subscript. replace (cp + 1)%nat with (S cp) by lia.
    destruct (nth_error l (S cp)) as [nt | ] eqn:N.
    + cbn [bind]. rewrite literal_8_10.
      change (mul (of_int (upper cur)) 0.8) with (inject_Z (upper cur) * 0.8).
      destruct (Qlt_le_dec (inject_Z (upper cur) * 0.8) spend) as [G | G].
      * apply ltb_lt in G. rewrite G. reflexivity.
      * apply ltb_ge in G. rewrite G. reflexivity.
    + apply nth_error_None in N. lia.
  - cbn [bind].
    assert (N : nth_error l (S cp) = None) by (apply nth_error_None; lia).
    rewrite N. reflexivity.
Qed.

Lemma recommendCommitTier_defined (l : list (tier Q)) (spend : Q) :
  l <> [] -> exists z, recommendCommitTier l spend = Some z.
Proof.
  intros NE. destruct l as [ | a l']; [ contradiction | ].
  destruct (subscript_last_cons a l') as (d & _ & D).
  unfold recommendCommitTier. cbv zeta.
  rewrite (current_position_next_or spend _ d D).
  destruct (nth_error (a :: l') (S (current_position spend (a :: l')))).
  - destruct (Qlt_le_dec _ spend); eexists; reflexivity.
  - eexists; reflexivity.
Qed.

Lemma position_of_above (spend : Q) (l : list (tier Q)) :
  (forall t, In t l -> inject_Z (upper t) < spend) ->
  position_of spend l = None.
Proof.
  induction l as [ | a l IH]; intros H; cbn [position_of]; [ reflexivity | ].
  assert (E : Qle_bool spend (inject_Z (upper a)) = false).
  { apply leb_gt, H. now left. }
  rewrite E, andb_false_r, IH; [ reflexivity | ].
  intros t I. apply H. now right.
Qed.

(** ** The recommendation *)



(** ** Negative arguments *)



(** ** The commit tier *)

Lemma next_or_commit_tier (c : Q) (l : list (tier Q)) (d : tier Q) :
  l <> [] ->
  nth_error l (length l - 1) = Some d ->
  commit_tier_of c l (next_or (fun t => leb c (of_int (upper t))) l d).
Proof.
  induction l as [ | a l IH]; intros NE D; [ contradiction | ].
  unfold next_or. cbn [find].
  destruct (leb c (of_int (upper a))) eqn:E.
  - apply commit_tier_here. now apply leb_le in E.
  - apply leb_gt in E. destruct l as [ | b l'].
    + cbn in D. injection D as <-. cbn [find]. now apply commit_tier_last.
    + apply commit_tier_later; [ exact E | ].
      apply IH; [ discriminate | ].
      cbn [length] in D |- *.
      replace (S (S (length l')) - 1)%nat with (S (length l')) in D by lia.
      replace (S (length l') - 1)%nat with (length l') by lia.
      exact D.
Qed.

(** On a valid table the tiers that follow a tier start above its upper
    bound. *)
Lemma contiguous_tail (a : tier Q) (l : list (tier Q)) :
  contiguous (a :: l) = true -> contiguous l = true.
Proof.
  unfold contiguous. destruct l as [ | b l]; [ reflexivity | ].
  cbn [adjacent]. intros H. apply andb_true_iff in H. apply H.
Qed.

Lemma later_tiers_above (a : tier Q) (l : list (tier Q)) :
  contiguous (a :: l) = true ->
  bounds_ordered (a :: l) = true ->
  forall t, In t l -> (upper a < lower t)%Z.
Proof.
  revert a. induction l as [ | b l IH]; intros a C B t I; [ destruct I | ].
  pose proof (contiguous_tail _ _ C) as C'.
  unfold contiguous in C. cbn [adjacent] in C.
  apply andb_true_iff in C. destruct C as [E _]. apply Z.eqb_eq in E.
  unfold bounds_ordered in B. cbn [forallb] in B.
  apply andb_true_iff in B. destruct B as [_ B].
  destruct I as [<- | I]; [ lia | ].
  specialize (IH b C' B t I).
  cbn [forallb] in B. apply andb_true_iff in B. destruct B as [Lb _].
  apply Z.ltb_lt in Lb. lia.
Qed.

Lemma find_commit_tier_containing (c : Q) (l : list (tier Q)) (t : tier Q) :
  contiguous l = true ->
  bounds_ordered l = true ->
  In t l ->
  contains c t = true ->
  find (fun u => leb c (of_int (upper u))) l = Some t.
Proof.
  induction l as [ | a l IH]; intros C B I R; [ destruct I | ].
  cbn [find]. destruct I as [<- | I].
  - unfold contains in R. apply andb_true_iff in R. destruct R as [_ R].
    now rewrite R.
  - pose proof (later_tiers_above _ _ C B t I) as L.
    assert (R' : of_int (lower t) <= c).
    { unfold contains in R. apply andb_true_iff in R. apply leb_le, R. }
    assert (E : leb c (of_int (upper a)) = false).
    { apply leb_gt. apply Qlt_le_trans with (2 := R').
      change (inject_Z (upper a) < inject_Z (lower t)).
      rewrite <- Zlt_Qlt. exact L. }
    rewrite E. apply IH; [ now apply contiguous_tail in C | | exact I | exact R ].
    unfold bounds_ordered in B. cbn [forallb] in B.
    apply andb_true_iff in B. apply B.
Qed.

Lemma valid_table_parts (l : list (tier Q)) :
  valid_table l = true ->
  l <> [] /\ contiguous l = true /\ bounds_ordered l = true.
Proof.
  unfold valid_table. rewrite !andb_true_iff.
  intros ((((N & _) & _) & C) & B). repeat split; try assumption.
  intros ->. discriminate N.
Qed.

Lemma eqb_positive (c : Q) : 0 < c -> eqb c (of_int 0) = false.
Proof.
  intros H. destruct (eqb c (of_int 0)) eqn:E; [ | reflexivity ].
  apply eqb_eq in E. change (of_int 0) with 0 in E.
  rewrite E in H. discriminate H.
Qed.

(** C2: for every spend [>= 0] and commitment [> 0], on a non-empty
    table, the commit price is [min(spend, commitment) * r + overflow],
    [r] being the rate of the first tier in table order whose upper bound
    is at least the commitment (of the last tier when there is none), and
    the overflow the flex price of [spend - commitment] when the spend
    exceeds the commitment and 0 otherwise.  No floor is applied to the
    sum: 50000 spent under a commitment of 50000 costs 1650, and the
    floor shows only inside the overflow, 60000 under the same
    commitment costing 1650 + 2500. *)
Theorem calculate_commit_price_spec
    (self : PricingCalculator Q) (spend commit_amount : Q) :
  tiers self <> [] ->
  0 <= spend ->
  0 < commit_amount ->
  (exists t : tier Q,
      commit_tier_of commit_amount (tiers self) t
      /\ calculate_commit_price self spend commit_amount
         = Returns (Qmin spend commit_amount * rate t
                    + (if Qlt_le_dec commit_amount spend
                       then calculate_flex_price self (spend - commit_amount)
                       else 0)))
  /\ (exists v, calculate_commit_price calculator 50000 50000 = Returns v
                /\ v == 1650)
  /\ (exists v, calculate_commit_price calculator 60000 50000 = Returns v
                /\ v == 1650 + 2500).
Proof.
  intros NE _ Hc. split.
  - destruct (tiers self) as [ | a l'] eqn:T; [ contradiction | ].
    destruct (subscript_last_cons a l') as (d & L & D).
    exists (next_or (fun t => leb commit_amount (of_int (upper t))) (a :: l') d).
    split; [ now apply next_or_commit_tier | ].
    unfold calculate_commit_price.
    rewrite (eqb_positive _ Hc), T, L. cbn [bind]. cbv zeta.
    rewrite py_min_Qmin.
    destruct (Qlt_le_dec commit_amount spend) as [G | G].
    + apply ltb_lt in G. rewrite G. reflexivity.
    + apply ltb_ge in G. rewrite G. reflexivity.
  - split; eexists; (split; [ reflexivity | vm_compute; reflexivity ]).
Qed.

Lemma calculate_commit_price_spec_witness :
  (exists t : tier Q,
      commit_tier_of 200000 (tiers calculator) t
      /\ calculate_commit_price calculator 300000 200000
         = Returns (Qmin 300000 200000 * rate t
                    + (if Qlt_le_dec 200000 300000
                       then calculate_flex_price calculator (300000 - 200000)
                       else 0)))
  /\ (exists v, calculate_commit_price calculator 50000 50000 = Returns v
                /\ v == 1650)
  /\ (exists v, calculate_commit_price calculator 60000 50000 = Returns v
                /\ v == 1650 + 2500).
Proof.
  apply (calculate_commit_price_spec calculator 300000 200000).
  - discriminate.
  - vm_compute. discriminate.
  - reflexivity.
Defined.

(** C6, as the specification states it, fails at a commitment of 0,
    which tier 1 contains: the commit price of a spend of 0 is then the
    flex price of 0, the minimum invoice of 2500, and not 0 times the
    rate of tier 1. *)
Lemma full_commit_coverage_fails_at_zero :
  ~ (forall (spend commit_amount : Q) (t : tier Q),
        spend <= commit_amount ->
        In t (tiers calculator) ->
        contains commit_amount t = true ->
        exists v, calculate_commit_price calculator spend commit_amount
                  = Returns v
                  /\ v == Qmin spend commit_amount * rate t).
Proof.
  intros H.
  destruct (H 0 0 (Tier 0 125000 (literal 330 10000))) as (v & E & V).
  - apply Qle_refl.
  - left. reflexivity.
  - reflexivity.
  - injection E as <-. vm_compute in V. discriminate V.
Qed.

(** C6, amended: on a valid table, for every commitment [> 0] and every
    spend [<=] the commitment, the commit price is
    [min(spend, commitment)] times the rate of the tier whose range
    contains the commitment, plus an overflow of 0. *)
Theorem full_commit_coverage
    (self : PricingCalculator Q) (spend commit_amount : Q) (t : tier Q) :
  valid_table (tiers self) = true ->
  0 < commit_amount ->
  spend <= commit_amount ->
  In t (tiers self) ->
  contains commit_amount t = true ->
  calculate_commit_price self spend commit_amount
  = Returns (Qmin spend commit_amount * rate t + 0).
Proof.
  intros V Hc Hs I R.
  destruct (valid_table_parts _ V) as (NE & C & B).
  unfold calculate_commit_price. rewrite (eqb_positive _ Hc).
  destruct (tiers self) as [ | a l'] eqn:T; [ contradiction | ].
  destruct (subscript_last_cons a l') as (d & -> & _). cbn [bind]. cbv zeta.
  unfold next_or.
  rewrite (find_commit_tier_containing commit_amount _ t C B I R).
  apply ltb_ge in Hs. rewrite Hs, py_min_Qmin. reflexivity.
Qed.

Lemma full_commit_coverage_witness :
  calculate_commit_price calculator 100000 200000
  = Returns (Qmin 100000 200000 * rate (Tier 125001 250000 (literal 315 10000)) + 0).
Proof.
  apply (full_commit_coverage calculator 100000 200000
           (Tier 125001 250000 (literal 315 10000))).
  - vm_compute. reflexivity.
  - reflexivity.
  - vm_compute. discriminate.
  - right. left. reflexivity.
  - vm_compute. reflexivity.
Defined.

(** ** Monotonicity of the flex price *)

Lemma billable_cons (a : tier Q) (l : list (tier Q)) :
  billable (a :: l) = true ->
  0 <= inject_Z (upper a - lower a) /\ 0 <= rate a /\ billable l = true.
Proof.
  unfold billable. cbn [forallb]. rewrite !andb_true_iff.
  intros ((W & R) & B). repeat split; [ | now apply Qle_bool_iff | exact B ].
  apply Z.leb_le in W. change 0 with (inject_Z 0). rewrite <- Zle_Qle. lia.
Qed.

(** One turn of the loop body: what a tier bills and what it leaves
    both grow with the amount that reaches it. *)
Lemma tier_spend_monotone (r1 r2 cap : Q) :
  r1 <= r2 ->
  Qmin r1 cap <= Qmin r2 cap /\ r1 - Qmin r1 cap <= r2 - Qmin r2 cap.
Proof.
  intros H.
  destruct (Q.min_spec r1 cap) as [(L1 & E1) | (L1 & E1)];
    destruct (Q.min_spec r2 cap) as [(L2 & E2) | (L2 & E2)];
    rewrite E1, E2; split; lra.
Qed.

Lemma tier_spend_nonneg (r cap : Q) : 0 < r -> 0 <= cap -> 0 <= Qmin r cap.
Proof.
  intros R C. destruct (Q.min_spec r cap) as [(_ & E) | (_ & E)]; rewrite E; lra.
Qed.

(** The loop never lowers its running total. *)
Lemma flex_loop_ge_total (l : list (tier Q)) :
  billable l = true ->
  forall total remaining : Q, total <= flex_loop l total remaining.
Proof.
  induction l as [ | a l IH]; intros B total remaining; cbn [flex_loop].
  - apply Qle_refl.
  - destruct (billable_cons _ _ B) as (W & R & B').
    destruct (leb remaining (of_int 0)) eqn:E; [ apply Qle_refl | ].
    apply leb_gt in E. change (of_int 0) with 0 in E.
    cbv zeta. rewrite py_min_Qmin.
    eapply Qle_trans; [ | apply (IH B') ].
    change (of_int (upper a - lower a)) with (inject_Z (upper a - lower a)).
    pose proof (tier_spend_nonneg _ _ E W) as S.
    pose proof (Qmult_le_0_compat _ _ S R) as P.
    change (@add Q Exact) with Qplus. change (@mul Q Exact) with Qmult.
    lra.
Qed.

(** More spend into the loop, and a larger total so far, give a larger
    total at the end. *)
Lemma flex_loop_monotone (l : list (tier Q)) :
  billable l = true ->
  forall t1 t2 r1 r2 : Q,
    t1 <= t2 -> r1 <= r2 -> flex_loop l t1 r1 <= flex_loop l t2 r2.
Proof.
  induction l as [ | a l IH]; intros B t1 t2 r1 r2 Ht Hr; cbn [flex_loop].
  - exact Ht.
  - destruct (billable_cons _ _ B) as (W & R & B').
    change (of_int 0) with 0.
    change (of_int (upper a - lower a)) with (inject_Z (upper a - lower a)).
    set (cap := inject_Z (upper a - lower a)) in *.
    cbv zeta. rewrite !py_min_Qmin.
    change (@add Q Exact) with Qplus. change (@mul Q Exact) with Qmult.
    change (@sub Q Exact) with Qminus.
    destruct (leb r1 0) eqn:E1; destruct (leb r2 0) eqn:E2.
    + exact Ht.
    + apply leb_gt in E2.
      eapply Qle_trans; [ | apply (flex_loop_ge_total _ B') ].
      pose proof (tier_spend_nonneg _ _ E2 W) as S.
      pose proof (Qmult_le_0_compat _ _ S R) as P. lra.
    + apply leb_gt in E1. apply leb_le in E2. lra.
    + destruct (tier_spend_monotone r1 r2 cap Hr) as (M & M').
      apply (IH B'); [ | exact M' ].
      pose proof (Qmult_le_compat_r _ _ _ M R) as P. lra.
Qed.

Lemma TIERS_billable : billable (TIERS (A := Exact)) = true.
Proof. vm_compute. reflexivity. Qed.

(** Past the floor threshold the tiers alone bill more than the floor. *)
Lemma flex_loop_above_floor (b : Q) :
  125000 < b -> 2500 <= flex_loop TIERS 0 b.
Proof.
  intros H.
  apply Qle_trans with (y := flex_loop TIERS 0 125000).
  - vm_compute. discriminate.
  - apply (flex_loop_monotone _ TIERS_billable); [ apply Qle_refl | lra ].
Qed.

(** C5: the flex price never decreases with the spend: for all
    [a <= b] (negative amounts included, so in particular for
    [0 <= a <= b]) the price of [a] is at most the price of [b]. *)
Theorem calculate_flex_price_monotone (a b : Q) :
  a <= b ->
  calculate_flex_price calculator a <= calculate_flex_price calculator b.
Proof.
  intros H. unfold calculate_flex_price. cbv zeta.
  change (tiers calculator) with (TIERS (A := Exact)).
  change (of_int 0) with 0. change (of_int 125000) with 125000.
  change (of_int 2500) with 2500. rewrite !py_max_Qmax.
  pose proof (flex_loop_monotone _ TIERS_billable 0 0 a b (Qle_refl 0) H) as M.
  destruct (leb a 125000) eqn:Ea; destruct (leb b 125000) eqn:Eb.
  - apply Q.max_le_compat_r. exact M.
  - apply leb_gt in Eb. apply Q.max_lub; [ exact M | ].
    now apply flex_loop_above_floor.
  - apply leb_gt in Ea. apply leb_le in Eb. lra.
  - exact M.
Qed.

Lemma calculate_flex_price_monotone_witness :
  calculate_flex_price calculator 50000 <= calculate_flex_price calculator 200000.
Proof.
  apply (calculate_flex_price_monotone 50000 200000).
  vm_compute. discriminate.
Defined.

(** ** Further properties of the engine *)

(** The floor of section 8: up to a spend of 125000 the flex price is at
    least 2500, whatever the table. *)
Theorem calculate_flex_price_floor (self : PricingCalculator Q) (spend : Q) :
  spend <= 125000 -> 2500 <= calculate_flex_price self spend.
Proof.
  intros H. unfold calculate_flex_price. cbv zeta.
  apply leb_le in H. change (of_int 125000) with 125000. rewrite H.
  rewrite py_max_Qmax. apply Q.le_max_r.
Qed.

Lemma calculate_flex_price_floor_witness :
  2500 <= calculate_flex_price calculator 50000.
Proof.
  apply (calculate_flex_price_floor calculator 50000).
  vm_compute. discriminate.
Defined.

(** An empty table makes [self.tiers[-1]] fail: a commit price under a
    commitment other than 0, and every recommendation, raise
    [IndexError]; the flex price is the floor or 0. *)
Theorem empty_table_raises (spend commit_amount : Q) :
  0 < commit_amount ->
  calculate_commit_price {| tiers := []; df_tiers := [] |} spend commit_amount
  = Raises IndexError
  /\ recommend_commit_tier {| tiers := []; df_tiers := [] |} spend
     = Raises IndexError.
Proof.
  intros H. split; [ | reflexivity ].
  unfold calculate_commit_price. now rewrite (eqb_positive _ H).
Qed.

Lemma empty_table_raises_witness :
  calculate_commit_price {| tiers := []; df_tiers := [] |} 50000 10000
  = Raises IndexError
  /\ recommend_commit_tier {| tiers := []; df_tiers := [] |} 50000
     = Raises IndexError.
Proof. apply (empty_table_raises 50000 10000). reflexivity. Defined.

(** The recommendation is the upper bound of a tier of the table, hence
    at most 250,000,000 on the shipped table. *)
Theorem recommend_commit_tier_in_table (spend : Q) :
  exists r : Z,
    recommend_commit_tier calculator spend = Returns r
    /\ In r (map upper (TIERS (A := Exact)))
    /\ (r <= 250000000)%Z.
Proof.
  assert (U : forall r, In r (map upper (TIERS (A := Exact))) -> (r <= 250000000)%Z).
  { intros r I. cbn in I.
    repeat (destruct I as [<- | I]; [ lia | ]). destruct I. }
  rewrite recommend_commit_tier_refines by (vm_compute; reflexivity).
  change (tiers calculator) with (TIERS (A := Exact)).
  unfold recommendCommitTier. cbv zeta.
  destruct (nth_error TIERS (current_position spend TIERS)) as [cur | ] eqn:C.
  - assert (Ic : In (upper cur) (map upper (TIERS (A := Exact))))
      by (apply in_map; eapply nth_error_In, C).
    destruct (nth_error TIERS (S (current_position spend TIERS))) as [nt | ] eqn:N.
    + assert (In' : In (upper nt) (map upper (TIERS (A := Exact))))
        by (apply in_map; eapply nth_error_In, N).
      destruct (Qlt_le_dec _ spend); eexists; (split; [ reflexivity | ]); auto.
    + eexists; (split; [ reflexivity | ]); auto.
  - exfalso.
    destruct (recommendCommitTier_defined (TIERS (A := Exact)) spend) as (z & Z);
      [ discriminate | ].
    unfold recommendCommitTier in Z. cbv zeta in Z. rewrite C in Z.
    discriminate Z.
Qed.

(** A whole amount within the bounds of a valid table lies in the range
    of one of its tiers. *)
Lemma position_of_whole_amount (l : list (tier Q)) :
  contiguous l = true ->
  forall n : Z,
    (match l with [] => False | t :: _ => lower t <= n end)%Z ->
    (n <= last (map upper l) 0)%Z ->
    position_of (inject_Z n) l <> None.
Proof.
  induction l as [ | a l IH]; intros C n Lo Hi; [ destruct Lo | ].
  cbn [position_of].
  assert (E1 : Qle_bool (inject_Z (lower a)) (inject_Z n) = true)
    by (apply Qle_bool_iff; rewrite <- Zle_Qle; exact Lo).
  rewrite E1. cbn [andb].
  destruct (Qle_bool (inject_Z n) (inject_Z (upper a))) eqn:E2; [ discriminate | ].
  assert (G : (upper a < n)%Z).
  { apply Z.nle_gt. intros Le. rewrite Zle_Qle in Le.
    apply Qle_bool_iff in Le. congruence. }
  destruct l as [ | b l'].
  - cbn in Hi. lia.
  - pose proof (contiguous_tail _ _ C) as C'.
    unfold contiguous in C. cbn [adjacent] in C.
    apply andb_true_iff in C. destruct C as [Eq _]. apply Z.eqb_eq in Eq.
    assert (P : position_of (inject_Z n) (b :: l') <> None).
    { apply (IH C'); [ lia | exact Hi ]. }
    destruct (position_of (inject_Z n) (b :: l')); [ discriminate | contradiction ].
Qed.

(** On the shipped table every whole spend from 0 to 250,000,000 is in a
    tier, so the fallback to the last tier is left to larger spends; a
    spend between two whole amounts at a tier boundary, such as
    125000.5, is in no tier and is sent to the last tier as well. *)
Theorem TIERS_cover_whole_amounts (n : Z) :
  (0 <= n <= 250000000)%Z ->
  (exists i, position_of (inject_Z n) TIERS = Some i)
  /\ position_of 125000.5 TIERS = None
  /\ recommend_commit_tier calculator 125000.5 = Returns 250000000%Z.
Proof.
  intros (Lo & Hi). split; [ | split; vm_compute; reflexivity ].
  pose proof (position_of_whole_amount (TIERS (A := Exact))
                ltac:(vm_compute; reflexivity) n Lo Hi) as P.
  destruct (position_of (inject_Z n) TIERS) as [i | ]; [ now exists i | contradiction ].
Qed.

Lemma TIERS_cover_whole_amounts_witness :
  (exists i, position_of (inject_Z 200000) TIERS = Some i)
  /\ position_of 125000.5 TIERS = None
  /\ recommend_commit_tier calculator 125000.5 = Returns 250000000%Z.
Proof. apply (TIERS_cover_whole_amounts 200000). lia. Defined.

(** ** Bounds on the flex price *)

Lemma billable_capacity (a : tier Q) (l : list (tier Q)) :
  billable (a :: l) = true -> 0 <= capacity a.
Proof. intros B. apply (billable_cons _ _ B). Qed.

Lemma full_bill_nonneg (l : list (tier Q)) :
  billable l = true -> 0 <= full_bill l.
Proof.
  induction l as [ | a l IH]; intros B; cbn [full_bill]; [ apply Qle_refl | ].
  destruct (billable_cons _ _ B) as (W & R & B').
  pose proof (IH B') as F. pose proof (Qmult_le_0_compat _ _ W R) as P.
  unfold capacity. lra.
Qed.

Lemma capacity_sum_nonneg (l : list (tier Q)) :
  billable l = true -> 0 <= capacity_sum l.
Proof.
  induction l as [ | a l IH]; intros B; cbn [capacity_sum]; [ apply Qle_refl | ].
  destruct (billable_cons _ _ B) as (W & R & B').
  pose proof (IH B') as F. unfold capacity. lra.
Qed.

(** One step of the loop, in exact arithmetic. *)
Lemma flex_loop_step (a : tier Q) (l : list (tier Q)) (total remaining : Q) :
  0 < remaining ->
  flex_loop (a :: l) total remaining
  = flex_loop l (total + Qmin remaining (capacity a) * rate a)
              (remaining - Qmin remaining (capacity a)).
Proof.
  intros H. cbn [flex_loop].
  assert (E : leb remaining (of_int 0) = false) by now apply leb_gt.
  rewrite E. cbv zeta. rewrite py_min_Qmin. reflexivity.
Qed.

Lemma flex_loop_stop (l : list (tier Q)) (total remaining : Q) :
  remaining <= 0 -> flex_loop l total remaining = total.
Proof.
  intros H. destruct l as [ | a l]; cbn [flex_loop]; [ reflexivity | ].
  assert (E : leb remaining (of_int 0) = true) by now apply leb_le.
  now rewrite E.
Qed.

(** The loop bills at most the rate [r] on what it is given, when no
    rate of the table is above [r]. *)
Lemma flex_loop_le_rate (r : Q) (l : list (tier Q)) :
  0 <= r ->
  billable l = true ->
  rates_at_most r l = true ->
  forall total remaining : Q,
    0 <= remaining -> flex_loop l total remaining <= total + r * remaining.
Proof.
  intros Hr. induction l as [ | a l IH]; intros B M total remaining H.
  - cbn [flex_loop]. pose proof (Qmult_le_0_compat _ _ Hr H). lra.
  - destruct (Qlt_le_dec 0 remaining) as [P | P].
    + rewrite (flex_loop_step _ _ _ _ P).
      destruct (billable_cons _ _ B) as (W & R & B').
      unfold rates_at_most in M. cbn [forallb] in M.
      apply andb_true_iff in M. destruct M as [Ma M'].
      apply Qle_bool_iff in Ma.
      pose proof (tier_spend_nonneg _ _ P W) as S0.
      pose proof (Q.le_min_l remaining (capacity a)) as S1.
      fold (capacity a) in S0.
      eapply Qle_trans; [ apply (IH B' M'); lra | ].
      pose proof (Qmult_le_compat_r _ _ _ Ma S0). lra.
    + rewrite (flex_loop_stop _ _ _ P).
      pose proof (Qmult_le_0_compat _ _ Hr H). lra.
Qed.

(** It bills at most the full bill of the table. *)
Lemma flex_loop_le_full (l : list (tier Q)) :
  billable l = true ->
  forall total remaining : Q,
    flex_loop l total remaining <= total + full_bill l.
Proof.
  induction l as [ | a l IH]; intros B total remaining.
  - cbn [flex_loop full_bill]. lra.
  - pose proof (full_bill_nonneg _ B) as F.
    destruct (Qlt_le_dec 0 remaining) as [P | P].
    + rewrite (flex_loop_step _ _ _ _ P).
      destruct (billable_cons _ _ B) as (W & R & B').
      eapply Qle_trans; [ apply (IH B') | ].
      pose proof (Q.le_min_r remaining (capacity a)) as S1.
      pose proof (Qmult_le_compat_r _ _ _ S1 R).
      cbn [full_bill]. lra.
    + rewrite (flex_loop_stop _ _ _ P). lra.
Qed.


Lemma TIERS_rates_at_most : rates_at_most 0.033 (TIERS (A := Exact)) = true.
Proof. vm_compute. reflexivity. Qed.

(** The price without the floor, by itself. *)
Lemma calculate_flex_price_unfold (spend : Q) :
  calculate_flex_price calculator spend
  = if Qle_bool spend 125000
    then Qmax (flex_loop TIERS 0 spend) 2500
    else flex_loop TIERS 0 spend.
Proof.
  unfold calculate_flex_price. cbv zeta. rewrite py_max_Qmax. reflexivity.
Qed.



(** Once the spend fills every tier, 249,999,975 in all, the rest is
    billed nowhere: the flex price stays at the full bill of the table.
    The last 25 dollars of the spend slider are among them. *)
Theorem calculate_flex_price_saturates (spend : Q) :
  249999975 <= spend ->
  calculate_flex_price calculator spend == 1452637.1887.
Proof.
  intros H. rewrite calculate_flex_price_unfold.
  assert (E : Qle_bool spend 125000 = false) by (apply (leb_gt spend 125000); lra).
  rewrite E. apply Qle_antisym.
  - eapply Qle_trans; [ apply (flex_loop_le_full _ TIERS_billable) | ].
    vm_compute. discriminate.
  - apply Qle_trans with (y := flex_loop TIERS 0 249999975).
    + vm_compute. discriminate.
    + apply (flex_loop_monotone _ TIERS_billable); [ apply Qle_refl | exact H ].
Qed.

Lemma calculate_flex_price_saturates_witness :
  calculate_flex_price calculator 250000000 == 1452637.1887.
Proof.
  apply (calculate_flex_price_saturates 250000000).
  vm_compute. discriminate.
Defined.

(** Within the first tier the loop bills the whole spend at its rate and
    stops. *)
Lemma flex_loop_first_tier (spend : Q) :
  0 < spend -> spend <= 125000 -> flex_loop TIERS 0 spend == 0.033 * spend.
Proof.
  intros P H. unfold TIERS.
  rewrite (flex_loop_step _ _ _ _ P).
  change (capacity (Tier 0 125000 (literal 330 10000))) with 125000.
  change (rate (Tier 0 125000 (literal 330 10000))) with (330 # 10000).
  pose proof (Q.min_l spend 125000 H) as E.
  rewrite flex_loop_stop by lra.
  rewrite E. ring.
Qed.

(** Up to 125,000 the flex price is 3.3% of the spend, or the minimum
    invoice when that is less. *)
Theorem calculate_flex_price_first_tier (spend : Q) :
  spend <= 125000 ->
  calculate_flex_price calculator spend == Qmax (0.033 * spend) 2500.
Proof.
  intros H. rewrite calculate_flex_price_unfold.
  apply Qle_bool_iff in H. rewrite H. apply Qle_bool_iff in H.
  destruct (Qlt_le_dec 0 spend) as [P | P].
  - now rewrite (flex_loop_first_tier spend P H).
  - rewrite (flex_loop_stop _ _ _ P).
    assert (N : 0.033 * spend <= 0).
    { assert (D : 0 <= - spend) by lra.
      assert (R0 : 0 <= 0.033) by (vm_compute; discriminate).
      pose proof (Qmult_le_0_compat _ _ R0 D). lra. }
    rewrite (Q.max_r 0 2500) by (vm_compute; discriminate).
    rewrite Q.max_r by lra. reflexivity.
Qed.

Lemma calculate_flex_price_first_tier_witness :
  calculate_flex_price calculator 100000 == Qmax (0.033 * 100000) 2500.
Proof.
  apply (calculate_flex_price_first_tier 100000).
  vm_compute. discriminate.
Defined.

(** On the shipped table no flex price is below the minimum invoice of
    2500, whatever the spend, and none is above the larger of 3.3% of
    the spend and 2500. *)
Theorem calculate_flex_price_bounds (spend : Q) :
  2500 <= calculate_flex_price calculator spend
  /\ calculate_flex_price calculator spend <= Qmax (0.033 * spend) 2500.
Proof.
  rewrite calculate_flex_price_unfold.
  assert (R0 : 0 <= 0.033) by (vm_compute; discriminate).
  destruct (Qle_bool spend 125000) eqn:E.
  - split; [ apply Q.le_max_r | ].
    destruct (Qlt_le_dec spend 0) as [N | N].
    + rewrite (flex_loop_stop _ _ _ (Qlt_le_weak _ _ N)).
      rewrite (Q.max_r 0 2500) by (vm_compute; discriminate).
      apply Q.le_max_r.
    + apply Q.max_le_compat_r.
      pose proof (flex_loop_le_rate 0.033 _ R0 TIERS_billable TIERS_rates_at_most
                    0 spend N). lra.
  - apply (leb_gt spend 125000) in E. split.
    + now apply flex_loop_above_floor.
    + assert (N : 0 <= spend) by lra.
      pose proof (flex_loop_le_rate 0.033 _ R0 TIERS_billable TIERS_rates_at_most
                    0 spend N).
      pose proof (Q.le_max_l (0.033 * spend) 2500). lra.
Qed.

(** ** The recommendation covers the spend *)

Lemma bounds_ordered_In (l : list (tier Q)) (t : tier Q) :
  bounds_ordered l = true -> In t l -> (lower t < upper t)%Z.
Proof.
  intros B I. unfold bounds_ordered in B.
  rewrite forallb_forall in B. apply Z.ltb_lt, B, I.
Qed.

Lemma bounds_ordered_tail (a : tier Q) (l : list (tier Q)) :
  bounds_ordered (a :: l) = true -> bounds_ordered l = true.
Proof.
  unfold bounds_ordered. cbn [forallb]. intros B.
  apply andb_true_iff in B. apply B.
Qed.

(** On a valid table the upper bounds grow along the table. *)
Lemma next_upper_above (l : list (tier Q)) :
  contiguous l = true ->
  bounds_ordered l = true ->
  forall (i : nat) (a b : tier Q),
    nth_error l i = Some a -> nth_error l (S i) = Some b ->
    (upper a < upper b)%Z.
Proof.
  induction l as [ | x l IH]; intros C B i a b Na Nb.
  - destruct i; discriminate Na.
  - destruct i as [ | i].
    + cbn [nth_error] in Na. injection Na as <-.
      change (nth_error l 0 = Some b) in Nb.
      assert (I : In b l) by (eapply nth_error_In, Nb).
      pose proof (later_tiers_above _ _ C B b I).
      pose proof (bounds_ordered_In _ b (bounds_ordered_tail _ _ B) I). lia.
    + change (nth_error l i = Some a) in Na.
      change (nth_error l (S i) = Some b) in Nb.
      apply (IH (contiguous_tail _ _ C) (bounds_ordered_tail _ _ B) i a b Na Nb).
Qed.

Lemma TIERS_contiguous : contiguous (TIERS (A := Exact)) = true.
Proof. vm_compute. reflexivity. Qed.

Lemma TIERS_bounds_ordered : bounds_ordered (TIERS (A := Exact)) = true.
Proof. vm_compute. reflexivity. Qed.

Lemma TIERS_sorted_ascending : sorted_ascending (TIERS (A := Exact)) = true.
Proof. vm_compute. reflexivity. Qed.

Lemma TIERS_upper_range (t : tier Q) :
  In t (TIERS (A := Exact)) -> (125000 <= upper t <= 250000000)%Z.
Proof.
  intros I. cbn in I.
  repeat (destruct I as [<- | I]; [ cbn; lia | ]). destruct I.
Qed.

(** The specification's recommendation is the upper bound of a tier of
    the table. *)
Lemma recommendCommitTier_upper (spend : Q) :
  exists t, In t (TIERS (A := Exact))
            /\ recommendCommitTier TIERS spend = Some (upper t).
Proof.
  unfold recommendCommitTier. cbv zeta.
  destruct (nth_error TIERS (current_position spend TIERS)) as [cur | ] eqn:C.
  - pose proof (nth_error_In _ _ C) as Ic.
    destruct (nth_error TIERS (S (current_position spend TIERS))) as [nt | ] eqn:N.
    + pose proof (nth_error_In _ _ N) as In'.
      destruct (Qlt_le_dec _ spend); [ exists nt | exists cur ]; now split.
    + exists cur. now split.
  - exfalso.
    destruct (recommendCommitTier_defined (TIERS (A := Exact)) spend) as (z & Z);
      [ discriminate | ].
    unfold recommendCommitTier in Z. cbv zeta in Z. rewrite C in Z.
    discriminate Z.
Qed.

Lemma recommendCommitTier_covers (spend : Q) :
  spend <= 250000000 ->
  exists r, recommendCommitTier TIERS spend = Some r /\ spend <= inject_Z r.
Proof.
  intros H. unfold recommendCommitTier, current_position. cbv zeta.
  pose proof (position_of_find spend TIERS) as P.
  destruct (position_of spend TIERS) as [i | ].
  - destruct P as (t & F & N). rewrite N.
    apply find_some in F. destruct F as [_ F].
    unfold contains in F. apply andb_true_iff in F. destruct F as [_ F].
    apply leb_le in F. change (of_int (upper t)) with (inject_Z (upper t)) in F.
    destruct (nth_error TIERS (S i)) as [nt | ] eqn:N'.
    + destruct (Qlt_le_dec _ spend); eexists; (split; [ reflexivity | ]);
        [ | exact F ].
      pose proof (next_upper_above _ TIERS_contiguous TIERS_bounds_ordered
                    i t nt N N') as U.
      apply Z.lt_le_incl in U. rewrite Zle_Qle in U. lra.
    + eexists. split; [ reflexivity | exact F ].
  - exists 250000000%Z. split; [ reflexivity | exact H ].
Qed.

(** For every spend up to 250,000,000 the recommended tier is at least
    the spend, so a commitment at the recommendation covers it; a larger
    spend is recommended 250,000,000, which is less. *)
Theorem recommend_commit_tier_covers :
  (forall spend : Q,
      spend <= 250000000 ->
      exists r, recommend_commit_tier calculator spend = Returns r
                /\ spend <= inject_Z r)
  /\ (forall spend : Q,
      250000000 < spend ->
      recommend_commit_tier calculator spend = Returns 250000000%Z).
Proof.
  split; intros spend H.
  - destruct (recommendCommitTier_covers spend H) as (r & R & C).
    exists r. split; [ | exact C ].
    rewrite (recommend_commit_tier_refines calculator _ TIERS_sorted_ascending).
    change (tiers calculator) with (TIERS (A := Exact)). now rewrite R.
  - rewrite (recommend_commit_tier_refines calculator _ TIERS_sorted_ascending).
    change (tiers calculator) with (TIERS (A := Exact)).
    unfold recommendCommitTier, current_position.
    rewrite position_of_above; [ reflexivity | ].
    intros t I. apply TIERS_upper_range in I.
    destruct I as [_ I]. rewrite Zle_Qle in I.
    change (inject_Z 250000000) with 250000000 in I. lra.
Qed.

Lemma recommend_commit_tier_covers_witness :
  exists r, recommend_commit_tier calculator 500000 = Returns r
            /\ 500000 <= inject_Z r.
Proof.
  apply (proj1 recommend_commit_tier_covers 500000).
  vm_compute. discriminate.
Defined.

(** ** A commitment that covers the spend *)

Lemma billable_app (p q : list (tier Q)) :
  billable (p ++ q) = true -> billable p = true /\ billable q = true.
Proof.
  unfold billable. rewrite forallb_app. apply andb_true_iff.
Qed.

Lemma billable_rate (l : list (tier Q)) (t : tier Q) :
  billable l = true -> In t l -> 0 <= rate t.
Proof.
  intros B I. unfold billable in B. rewrite forallb_forall in B.
  specialize (B t I). apply andb_true_iff in B. apply Qle_bool_iff, B.
Qed.

(** Tiers added at the end of a table never lower what the loop bills. *)
Lemma flex_loop_prefix (p post : list (tier Q)) :
  billable (p ++ post) = true ->
  forall total remaining : Q,
    flex_loop p total remaining <= flex_loop (p ++ post) total remaining.
Proof.
  induction p as [ | a p IH]; intros B total remaining.
  - cbn [app flex_loop]. now apply flex_loop_ge_total.
  - change ((a :: p) ++ post) with (a :: (p ++ post)) in *.
    destruct (billable_cons _ _ B) as (_ & _ & B').
    destruct (Qlt_le_dec 0 remaining) as [P | P].
    + rewrite !(flex_loop_step _ _ _ _ P). apply (IH B').
    + rewrite !(flex_loop_stop _ _ _ P). apply Qle_refl.
Qed.

(** The loop bills at least the rate [r] on what it is given, as far as
    the widths of the table reach, when no rate of the table is below
    [r]. *)
Lemma flex_loop_ge_rate (r : Q) (l : list (tier Q)) :
  0 <= r ->
  billable l = true ->
  rates_at_least r l = true ->
  forall total remaining : Q,
    0 <= remaining ->
    total + r * Qmin remaining (capacity_sum l) <= flex_loop l total remaining.
Proof.
  intros Hr. induction l as [ | a l IH]; intros B M total remaining H.
  - cbn [flex_loop capacity_sum].
    rewrite (Q.min_r remaining 0 H). lra.
  - pose proof (capacity_sum_nonneg _ B) as CS.
    destruct (Qlt_le_dec 0 remaining) as [P | P].
    + rewrite (flex_loop_step _ _ _ _ P).
      destruct (billable_cons _ _ B) as (W & R & B').
      pose proof (capacity_sum_nonneg _ B') as CS'.
      unfold rates_at_least in M. cbn [forallb] in M.
      apply andb_true_iff in M. destruct M as [Ma M'].
      apply Qle_bool_iff in Ma. fold (capacity a) in W.
      pose proof (tier_spend_nonneg _ _ P W) as S0.
      pose proof (Q.le_min_l remaining (capacity a)) as S1.
      set (ts := Qmin remaining (capacity a)) in *.
      assert (H' : 0 <= remaining - ts) by lra.
      eapply Qle_trans; [ | apply (IH B' M' _ _ H') ].
      cbn [capacity_sum].
      assert (K : Qmin remaining (capacity a + capacity_sum l)
                  <= ts + Qmin (remaining - ts) (capacity_sum l)).
      { unfold ts.
        destruct (Q.min_spec remaining (capacity a)) as [(? & ->) | (? & ->)];
          destruct (Q.min_spec remaining (capacity a + capacity_sum l))
            as [(? & ->) | (? & ->)];
          match goal with
          | |- context [Qmin ?u ?v] =>
              destruct (Q.min_spec u v) as [(? & ->) | (? & ->)]
          end; lra. }
      pose proof (Qmult_le_compat_r _ _ _ K Hr).
      pose proof (Qmult_le_compat_r _ _ _ Ma S0). lra.
    + rewrite (flex_loop_stop _ _ _ P).
      pose proof (Q.le_min_l remaining (capacity_sum (a :: l))) as S1.
      assert (D : 0 <= - Qmin remaining (capacity_sum (a :: l))) by lra.
      pose proof (Qmult_le_0_compat _ _ Hr D). lra.
Qed.

Lemma prefixes_ok_split (pre : list (tier Q)) :
  forall (done todo post : list (tier Q)) (t : tier Q),
    prefixes_ok done todo = true ->
    todo = pre ++ t :: post ->
    rates_at_least (rate t) (done ++ pre ++ [t]) = true
    /\ rate t * inject_Z (upper t)
       <= flex_loop (done ++ pre ++ [t]) 0 (capacity_sum (done ++ pre ++ [t])).
Proof.
  induction pre as [ | x pre IH]; intros done todo post t K ->;
    cbn [app prefixes_ok] in K; cbv zeta in K;
    apply andb_true_iff in K; destruct K as [K K'];
    apply andb_true_iff in K; destruct K as [K1 K2].
  - cbn [app]. split; [ exact K1 | now apply Qle_bool_iff ].
  - destruct (IH (done ++ [x]) _ post t K' eq_refl) as (R & F).
    rewrite <- app_assoc in R, F. cbn [app] in R, F. split; assumption.
Qed.

Lemma TIERS_prefixes_ok : prefixes_ok [] (TIERS (A := Exact)) = true.
Proof. vm_compute. reflexivity. Qed.

(** Up to the upper bound of a tier, the loop bills at least the rate of
    that tier on the whole spend. *)
Lemma flex_loop_ge_tier_rate (t : tier Q) (spend : Q) :
  In t (TIERS (A := Exact)) ->
  0 <= spend ->
  spend <= inject_Z (upper t) ->
  rate t * spend <= flex_loop TIERS 0 spend.
Proof.
  intros I H U.
  destruct (in_split _ _ I) as (pre & post & E).
  destruct (prefixes_ok_split pre [] _ post t TIERS_prefixes_ok E) as (R & F).
  cbn [app] in R, F. set (p := pre ++ [t]) in *.
  assert (E' : TIERS (A := Exact) = p ++ post).
  { rewrite E. unfold p. rewrite <- app_assoc. reflexivity. }
  pose proof TIERS_billable as B. rewrite E' in B.
  destruct (billable_app _ _ B) as (Bp & _).
  pose proof (billable_rate _ t TIERS_billable I) as R0.
  rewrite E'. eapply Qle_trans; [ | apply (flex_loop_prefix _ _ B) ].
  destruct (Qlt_le_dec (capacity_sum p) spend) as [G | G].
  - eapply Qle_trans; [ | apply (flex_loop_monotone _ Bp 0 0 (capacity_sum p) spend);
                          [ apply Qle_refl | lra ] ].
    eapply Qle_trans; [ | exact F ].
    pose proof (Qmult_le_compat_r _ _ _ U R0). lra.
  - pose proof (flex_loop_ge_rate (rate t) p R0 Bp R 0 spend H) as L.
    rewrite (Q.min_l _ _ G) in L. lra.
Qed.

Lemma flex_loop_le_price (spend : Q) :
  flex_loop TIERS 0 spend <= calculate_flex_price calculator spend.
Proof.
  rewrite calculate_flex_price_unfold.
  destruct (Qle_bool spend 125000); [ apply Q.le_max_l | apply Qle_refl ].
Qed.

(** The commit tier of a positive commitment, and the price when the
    commitment covers the spend. *)
Lemma commit_price_covered (spend commit_amount : Q) :
  0 < commit_amount ->
  spend <= commit_amount ->
  exists t : tier Q,
    In t (TIERS (A := Exact))
    /\ (commit_amount <= inject_Z (upper t) \/ upper t = 250000000%Z)
    /\ calculate_commit_price calculator spend commit_amount
       = Returns (Qmin spend commit_amount * rate t + 0).
Proof.
  intros Hc Hs. unfold calculate_commit_price.
  rewrite (eqb_positive _ Hc).
  change (subscript_last (tiers calculator))
    with (Returns (Tier (num := Q) 208333334 250000000 (literal 34 10000))).
  cbn [bind]. cbv zeta. apply ltb_ge in Hs. rewrite Hs, py_min_Qmin.
  unfold next_or. change (tiers calculator) with (TIERS (A := Exact)).
  destruct (find (fun t => leb commit_amount (of_int (upper t))) TIERS)
    as [t | ] eqn:F.
  - apply find_some in F. destruct F as [I F]. apply leb_le in F.
    exists t. split; [ exact I | ]. split; [ now left | reflexivity ].
  - exists (Tier 208333334 250000000 (literal 34 10000)).
    split; [ | split; [ right; reflexivity | reflexivity ] ].
    apply (nth_error_In (TIERS (A := Exact)) 25). reflexivity.
Qed.

Lemma flex_price_ge_floor (spend : Q) :
  2500 <= calculate_flex_price calculator spend.
Proof.
  rewrite calculate_flex_price_unfold.
  destruct (Qle_bool spend 125000) eqn:E.
  - apply Q.le_max_r.
  - apply (leb_gt spend 125000) in E. now apply flex_loop_above_floor.
Qed.

(** The price of a covered spend at the rate of a tier that reaches it. *)
Lemma covered_price_le_flex (spend commit_amount : Q) (t : tier Q) :
  In t (TIERS (A := Exact)) ->
  commit_amount <= inject_Z (upper t) \/ upper t = 250000000%Z ->
  spend <= commit_amount ->
  spend <= 250000000 ->
  Qmin spend commit_amount * rate t + 0 <= calculate_flex_price calculator spend.
Proof.
  intros I U Hs Hm.
  pose proof (billable_rate _ t TIERS_billable I) as R0.
  rewrite (Q.min_l _ _ Hs).
  destruct (Qlt_le_dec spend 0) as [N | N].
  - pose proof (flex_price_ge_floor spend) as P.
    assert (D : 0 <= - spend) by lra.
    pose proof (Qmult_le_0_compat _ _ D R0). lra.
  - assert (V : spend <= inject_Z (upper t)).
    { destruct U as [U | U]; [ lra | ]. rewrite U. exact Hm. }
    pose proof (flex_loop_ge_tier_rate t spend I N V).
    pose proof (flex_loop_le_price spend). lra.
Qed.

(** Under a commitment above 0 that covers the spend, a spend of at
    most 250,000,000 costs no more than at flex rates: the savings
    [main] computes are not negative. *)
Theorem covered_commitment_never_costs_more (spend commit_amount : Q) :
  0 < commit_amount ->
  spend <= commit_amount ->
  spend <= 250000000 ->
  exists c : Q,
    calculate_commit_price calculator spend commit_amount = Returns c
    /\ c <= calculate_flex_price calculator spend.
Proof.
  intros Hc Hs Hm.
  destruct (commit_price_covered spend commit_amount Hc Hs) as (t & I & U & E).
  eexists. split; [ exact E | ].
  now apply covered_price_le_flex.
Qed.

Lemma covered_commitment_never_costs_more_witness :
  exists c : Q,
    calculate_commit_price calculator 500000 833333 = Returns c
    /\ c <= calculate_flex_price calculator 500000.
Proof.
  apply (covered_commitment_never_costs_more 500000 833333);
    vm_compute; (reflexivity || discriminate).
Defined.

(** Committing to the recommended tier: for every spend up to
    250,000,000 the recommendation exists, and the commit price of the
    spend under it is at most the flex price. *)
Theorem recommended_commitment_never_costs_more (spend : Q) :
  spend <= 250000000 ->
  exists (r : Z) (c : Q),
    recommend_commit_tier calculator spend = Returns r
    /\ calculate_commit_price calculator spend (inject_Z r) = Returns c
    /\ c <= calculate_flex_price calculator spend.
Proof.
  intros H.
  destruct (recommendCommitTier_covers spend H) as (r & R & C).
  destruct (recommendCommitTier_upper spend) as (t & I & R').
  assert (P : 0 < inject_Z r).
  { rewrite R in R'. injection R' as ->.
    apply TIERS_upper_range in I. change 0 with (inject_Z 0).
    rewrite <- Zlt_Qlt. lia. }
  destruct (commit_price_covered spend (inject_Z r) P C) as (u & Iu & U & E).
  exists r. eexists. split; [ | split; [ exact E | ] ].
  2: now apply covered_price_le_flex.
  rewrite (recommend_commit_tier_refines calculator _ TIERS_sorted_ascending).
  change (tiers calculator) with (TIERS (A := Exact)). now rewrite R.
Qed.

Lemma recommended_commitment_never_costs_more_witness :
  exists (r : Z) (c : Q),
    recommend_commit_tier calculator 500000 = Returns r
    /\ calculate_commit_price calculator 500000 (inject_Z r) = Returns c
    /\ c <= calculate_flex_price calculator 500000.
Proof.
  apply (recommended_commitment_never_costs_more 500000).
  vm_compute. discriminate.
Defined.

(** ** The page *)

Lemma all_from_spec (p : Z -> bool) (start stride : Z) (count : positive) :
  all_from p start stride count = true ->
  forall k : Z, (0 <= k < Zpos count)%Z -> p (start + stride * k)%Z = true.
Proof.
  unfold all_from.
  set (f := fun st : Z * bool => ((fst st + stride)%Z, snd st && p (fst st))).
  assert (I : forall n : positive,
             fst (Pos.iter f (start, true) n) = (start + stride * Zpos n)%Z
             /\ (snd (Pos.iter f (start, true) n) = true ->
                 forall k : Z, (0 <= k < Zpos n)%Z ->
                               p (start + stride * k)%Z = true)).
  { induction n as [ | n (F & S)] using Pos.peano_ind.
    - cbn. split; [ now rewrite Z.mul_1_r | ].
      intros H k K. assert (k = 0%Z) as -> by lia.
      now rewrite Z.mul_0_r, Z.add_0_r.
    - rewrite Pos.iter_succ. unfold f at 1 3. cbn [fst snd]. split.
      + rewrite F, Pos2Z.inj_succ, Z.mul_succ_r. lia.
      + intros H k K. apply andb_true_iff in H. destruct H as [H1 H2].
        destruct (Z.eq_dec k (Zpos n)) as [-> | D].
        * now rewrite <- F.
        * apply (S H1). lia. }
  intros H. apply (I count), H.
Qed.

(** The values the spend slider offers are 50000 + 10000 k for
    k = 0, ..., 24995. *)
Lemma spend_slider_grid (v : Z) :
  offers spend_slider v = true ->
  exists k : Z, (0 <= k < 24996)%Z /\ v = (50000 + 10000 * k)%Z.
Proof.
  unfold offers, spend_slider. cbn [min_value max_value step].
  rewrite !andb_true_iff, !Z.leb_le, Z.eqb_eq. intros ((L & U) & M).
  exists ((v - 50000) / 10000)%Z.
  pose proof (Z.div_mod (v - 50000) 10000 ltac:(lia)) as E.
  rewrite M in E. split; [ | lia ].
  split; [ apply Z.div_pos; lia | apply Z.div_lt_upper_bound; lia ].
Qed.

Lemma commit_price_returns (spend commit_amount : Q) :
  exists c, calculate_commit_price calculator spend commit_amount = Returns c.
Proof.
  unfold calculate_commit_price.
  destruct (eqb commit_amount (of_int 0)); eexists; reflexivity.
Qed.

(** For every value of the spend slider and whatever the commitment,
    [main] raises nothing; the recommended tier it shows is at least the
    spend, and it is the upper end of the commitment slider. *)
Theorem main_commit_slider (monthly_spend commit_amount : Z) :
  offers spend_slider monthly_spend = true ->
  exists page : Page Q,
    main monthly_spend commit_amount = Returns page
    /\ recommend_commit_tier calculator (inject_Z monthly_spend)
       = Returns (info_recommended page)
    /\ (monthly_spend <= info_recommended page)%Z
    /\ max_value (commit_range page) = info_recommended page.
Proof.
  intros O.
  destruct (spend_slider_grid _ O) as (k & K & ->).
  set (s := (50000 + 10000 * k)%Z).
  assert (H : inject_Z s <= 250000000).
  { change 250000000 with (inject_Z 250000000). rewrite <- Zle_Qle.
    unfold s. lia. }
  destruct (recommendCommitTier_covers _ H) as (r & R & C).
  assert (R' : recommend_commit_tier calculator (inject_Z s) = Returns r).
  { rewrite (recommend_commit_tier_refines calculator _ TIERS_sorted_ascending).
    change (tiers calculator) with (TIERS (A := Exact)). now rewrite R. }
  rewrite <- Zle_Qle in C.
  destruct (commit_price_returns (inject_Z s) (inject_Z commit_amount)) as (c & E).
  unfold main, generate_comparison_chart.
  change (init TIERS) with (Returns (calculator (A := Exact))). cbn [bind].
  change (of_int s) with (inject_Z s).
  change (of_int commit_amount) with (inject_Z commit_amount).
  rewrite R'. cbn [bind]. rewrite E. cbn [bind].
  eexists. split; [ reflexivity | ].
  cbn [commit_range info_recommended max_value commit_slider].
  split; [ reflexivity | ]. split; [ exact C | ].
  unfold int_max. destruct (Z.ltb_spec s r); [ reflexivity | lia ].
Qed.

Lemma main_commit_slider_witness :
  exists page : Page Q,
    main 500000 300000 = Returns page
    /\ recommend_commit_tier calculator (inject_Z 500000)
       = Returns (info_recommended page)
    /\ (500000 <= info_recommended page)%Z
    /\ max_value (commit_range page) = info_recommended page.
Proof. apply (main_commit_slider 500000 300000). reflexivity. Defined.

(** A check run along the whole spend slider holds at each of its
    values. *)
Lemma spend_slider_check (p : Z -> bool) (count : positive) :
  all_from p 50000 10000 count = true ->
  forall v : Z,
    offers spend_slider v = true -> (v < 50000 + 10000 * Zpos count)%Z ->
    p v = true.
Proof.
  intros H v O B. destruct (spend_slider_grid _ O) as (k & K & ->).
  apply (all_from_spec _ _ _ _ H). lia.
Qed.

Lemma slider_checked :
  all_from (slider_check calculator calculator) 50000 10000 24996 = true.
Proof. vm_compute. reflexivity. Qed.

Lemma slider_check_at (monthly_spend : Z) :
  offers spend_slider monthly_spend = true ->
  slider_check calculator calculator monthly_spend = true.
Proof.
  intros O. apply (spend_slider_check _ _ slider_checked _ O).
  destruct (spend_slider_grid _ O) as (k & K & ->). lia.
Qed.

Lemma slider_check_recommend (monthly_spend : Z) :
  offers spend_slider monthly_spend = true ->
  exists r : Z,
    recommend_commit_tier (A := Binary64) calculator (of_int monthly_spend)
    = Returns r
    /\ recommend_commit_tier (A := Exact) calculator (of_int monthly_spend)
       = Returns r.
Proof.
  intros O. pose proof (slider_check_at _ O) as C.
  unfold slider_check in C. cbv zeta in C.
  apply andb_true_iff in C. destruct C as [C _].
  apply andb_true_iff in C. destruct C as [C _].
  destruct (recommend_commit_tier (A := Binary64) calculator (of_int monthly_spend))
    as [a | ]; [ | discriminate C ].
  destruct (recommend_commit_tier (A := Exact) calculator (of_int monthly_spend))
    as [b | ]; [ | discriminate C ].
  apply Z.eqb_eq in C. subst b. exists a. split; reflexivity.
Qed.

(** With the commitment slider left at 0, [main] shows the flex price
    twice and no savings message: in exact arithmetic for every spend,
    and on doubles for every value of the spend slider. *)
Theorem main_default_commitment :
  (forall monthly_spend : Z,
      exists page : Page Q,
        main monthly_spend 0 = Returns page
        /\ commit_metric page = flex_metric page
        /\ success page = None)
  /\ (forall monthly_spend : Z,
      offers spend_slider monthly_spend = true ->
      exists page : Page float,
        main (A := Binary64) monthly_spend 0 = Returns page
        /\ commit_metric page = flex_metric page
        /\ success page = None).
Proof.
  split.
  - intros s.
    destruct (recommendCommitTier_defined (TIERS (A := Exact)) (inject_Z s))
      as (r & R); [ discriminate | ].
    assert (R' : recommend_commit_tier calculator (inject_Z s) = Returns r).
    { rewrite (recommend_commit_tier_refines calculator _ TIERS_sorted_ascending).
      change (tiers calculator) with (TIERS (A := Exact)). now rewrite R. }
    unfold main, generate_comparison_chart.
    change (init TIERS) with (Returns (calculator (A := Exact))). cbn [bind].
    change (of_int s) with (inject_Z s). rewrite R'. cbn [bind].
    change (calculate_commit_price calculator (inject_Z s) (of_int 0))
      with (Returns (calculate_flex_price calculator (inject_Z s))).
    cbn [bind]. eexists. split; [ reflexivity | ].
    cbn [commit_metric flex_metric success]. split; [ reflexivity | ].
    assert (E : ltb (of_int 0)
                    (sub (calculate_flex_price calculator (inject_Z s))
                         (calculate_flex_price calculator (inject_Z s))) = false).
    { apply ltb_ge. change (of_int 0) with 0.
      change (@sub Q Exact) with Qminus. lra. }
    now rewrite E.
  - intros s O.
    pose proof (slider_check_at _ O) as C.
    unfold slider_check in C. cbv zeta in C.
    apply andb_true_iff in C. destruct C as [_ C].
    apply negb_true_iff in C.
    destruct (slider_check_recommend _ O) as (r & R & _).
    unfold main, generate_comparison_chart.
    change (init TIERS) with (Returns (calculator (A := Binary64))). cbn [bind].
    rewrite R. cbn [bind].
    change (calculate_commit_price (A := Binary64) calculator (of_int s) (of_int 0))
      with (Returns (calculate_flex_price (A := Binary64) calculator (of_int s))).
    cbn [bind]. eexists. split; [ reflexivity | ].
    cbn [commit_metric flex_metric success]. split; [ reflexivity | ].
    now rewrite C.
Qed.

(** For every value of the spend slider the recommendation computed on
    doubles is the one of exact arithmetic. *)
Theorem recommend_commit_tier_binary64 (monthly_spend : Z) :
  offers spend_slider monthly_spend = true ->
  recommend_commit_tier (A := Binary64) calculator (of_int monthly_spend)
  = recommend_commit_tier (A := Exact) calculator (of_int monthly_spend).
Proof.
  intros O. destruct (slider_check_recommend _ O) as (r & Rd & Rq).
  now rewrite Rd, Rq.
Qed.

Lemma recommend_commit_tier_binary64_witness :
  recommend_commit_tier (A := Binary64) calculator (of_int 500000)
  = recommend_commit_tier (A := Exact) calculator (of_int 500000).
Proof. apply (recommend_commit_tier_binary64 500000). reflexivity. Defined.

(** On doubles, moving the spend slider one step up never lowers the
    flex price. *)
Theorem calculate_flex_price_binary64_step (monthly_spend : Z) :
  offers spend_slider monthly_spend = true ->
  offers spend_slider (monthly_spend + 10000) = true ->
  PrimFloat.leb
    (calculate_flex_price (A := Binary64) calculator (of_int monthly_spend))
    (calculate_flex_price (A := Binary64) calculator
       (of_int (monthly_spend + 10000))) = true.
Proof.
  intros O O'. pose proof (slider_check_at _ O) as C.
  unfold slider_check in C. cbv zeta in C.
  apply andb_true_iff in C. destruct C as [C _].
  apply andb_true_iff in C. destruct C as [_ C].
  assert (M : (monthly_spend + step spend_slider <=? max_value spend_slider)%Z
              = true).
  { unfold offers in O'. apply andb_true_iff in O'. destruct O' as [O' _].
    apply andb_true_iff in O'. apply O'. }
  rewrite M in C. exact C.
Qed.

Lemma calculate_flex_price_binary64_step_witness :
  PrimFloat.leb
    (calculate_flex_price (A := Binary64) calculator (of_int 500000))
    (calculate_flex_price (A := Binary64) calculator
       (of_int (500000 + 10000))) = true.
Proof.
  apply (calculate_flex_price_binary64_step 500000); reflexivity.
Defined.

(** ** Spending past the commitment *)

Lemma commit_tier_rate_nonneg (commit_amount : Q) (d : tier Q) :
  In d (TIERS (A := Exact)) ->
  0 <= rate (next_or (fun t => leb commit_amount (of_int (upper t))) TIERS d).
Proof.
  intros I. unfold next_or.
  destruct (find _ TIERS) as [t | ] eqn:F.
  - apply find_some in F. apply (billable_rate _ t TIERS_billable), F.
  - apply (billable_rate _ d TIERS_billable I).
Qed.

(** The overflow is priced as a purchase of its own, floor included: as
    soon as the spend exceeds a commitment above 0, by however little,
    the commit price is at least 2500 above the price of spending the
    commitment exactly. *)
Theorem overflow_costs_the_floor (spend commit_amount : Q) :
  0 < commit_amount ->
  commit_amount < spend ->
  exists c c0 : Q,
    calculate_commit_price calculator spend commit_amount = Returns c
    /\ calculate_commit_price calculator commit_amount commit_amount = Returns c0
    /\ c0 + 2500 <= c.
Proof.
  intros Hc Hs. unfold calculate_commit_price.
  rewrite (eqb_positive _ Hc).
  change (subscript_last (tiers calculator))
    with (Returns (Tier (num := Q) 208333334 250000000 (literal 34 10000))).
  cbn [bind]. cbv zeta. rewrite !py_min_Qmin.
  change (tiers calculator) with (TIERS (A := Exact)).
  set (t := next_or _ TIERS _).
  assert (E1 : ltb commit_amount spend = true) by now apply ltb_lt.
  assert (E2 : ltb commit_amount commit_amount = false)
    by (apply ltb_ge, Qle_refl).
  rewrite E1, E2. eexists _, _. split; [ reflexivity | ].
  split; [ reflexivity | ].
  pose proof (flex_price_ge_floor (sub spend commit_amount)) as F.
  rewrite (Q.min_r spend commit_amount) by lra.
  rewrite (Q.min_l commit_amount commit_amount) by lra.
  change (of_int 0) with 0.
  change (@add Q Exact) with Qplus. change (@mul Q Exact) with Qmult.
  lra.
Qed.

Lemma overflow_costs_the_floor_witness :
  exists c c0 : Q,
    calculate_commit_price calculator 500001 500000 = Returns c
    /\ calculate_commit_price calculator 500000 500000 = Returns c0
    /\ c0 + 2500 <= c.
Proof.
  apply (overflow_costs_the_floor 500001 500000); reflexivity.
Defined.

(** For a spend and a commitment that are not negative the commit price
    is not negative. *)
Theorem calculate_commit_price_nonneg (spend commit_amount : Q) :
  0 <= spend ->
  0 <= commit_amount ->
  exists c : Q,
    calculate_commit_price calculator spend commit_amount = Returns c
    /\ 0 <= c.
Proof.
  intros Hs Hc. unfold calculate_commit_price.
  destruct (eqb commit_amount (of_int 0)) eqn:E.
  - eexists. split; [ reflexivity | ].
    pose proof (flex_price_ge_floor spend). lra.
  - change (subscript_last (tiers calculator))
      with (Returns (Tier (num := Q) 208333334 250000000 (literal 34 10000))).
    cbn [bind]. cbv zeta. rewrite py_min_Qmin.
    change (tiers calculator) with (TIERS (A := Exact)).
    eexists. split; [ reflexivity | ].
    assert (R : 0 <= rate (next_or (fun t => leb commit_amount (of_int (upper t)))
                             TIERS (Tier 208333334 250000000 (literal 34 10000)))).
    { apply commit_tier_rate_nonneg.
      apply (nth_error_In (TIERS (A := Exact)) 25). reflexivity. }
    assert (M : 0 <= Qmin spend commit_amount) by (apply Q.min_glb; assumption).
    pose proof (Qmult_le_0_compat _ _ M R) as P.
    change (@add Q Exact) with Qplus. change (@mul Q Exact) with Qmult.
    destruct (ltb commit_amount spend).
    + pose proof (flex_price_ge_floor (sub spend commit_amount)). lra.
    + change (of_int 0) with 0. lra.
Qed.

Lemma calculate_commit_price_nonneg_witness :
  exists c : Q,
    calculate_commit_price calculator 500000 300000 = Returns c /\ 0 <= c.
Proof.
  apply (calculate_commit_price_nonneg 500000 300000); vm_compute; discriminate.
Defined.

(** ** The recommendation along whole spends *)

(** On a valid table a tier ends below the start of every later tier. *)
Lemma tiers_apart (l : list (tier Q)) :
  contiguous l = true ->
  bounds_ordered l = true ->
  forall (i j : nat) (a b : tier Q),
    nth_error l i = Some a -> nth_error l j = Some b -> (i < j)%nat ->
    (upper a < lower b)%Z.
Proof.
  induction l as [ | x l IH]; intros C B i j a b Na Nb L.
  - destruct i; discriminate Na.
  - destruct j as [ | j]; [ lia | ].
    change (nth_error l j = Some b) in Nb.
    destruct i as [ | i].
    + cbn [nth_error] in Na. injection Na as <-.
      apply (later_tiers_above _ _ C B). eapply nth_error_In, Nb.
    + change (nth_error l i = Some a) in Na.
      apply (IH (contiguous_tail _ _ C) (bounds_ordered_tail _ _ B) i j a b Na Nb).
      lia.
Qed.

(** A whole spend within the table: its tier, and the recommendation in
    terms of that tier and the next. *)
Lemma recommendCommitTier_whole (n : Z) :
  (0 <= n <= 250000000)%Z ->
  exists (i : nat) (t : tier Q),
    nth_error (TIERS (A := Exact)) i = Some t
    /\ (lower t <= n <= upper t)%Z
    /\ recommendCommitTier TIERS (inject_Z n)
       = Some (match nth_error (TIERS (A := Exact)) (S i) with
               | Some nt =>
                   if Qlt_le_dec (inject_Z (upper t) * 0.8) (inject_Z n)
                   then upper nt else upper t
               | None => upper t
               end).
Proof.
  intros (Lo & Hi).
  pose proof (position_of_whole_amount (TIERS (A := Exact)) TIERS_contiguous
                n Lo Hi) as P.
  pose proof (position_of_find (inject_Z n) TIERS) as F.
  unfold recommendCommitTier, current_position. cbv zeta.
  destruct (position_of (inject_Z n) TIERS) as [i | ]; [ | contradiction ].
  destruct F as (t & F & N). exists i, t. split; [ exact N | ].
  apply find_some in F. destruct F as [_ F].
  unfold contains in F. apply andb_true_iff in F. destruct F as [F1 F2].
  apply leb_le in F1, F2.
  change (of_int (lower t)) with (inject_Z (lower t)) in F1.
  change (of_int (upper t)) with (inject_Z (upper t)) in F2.
  rewrite <- Zle_Qle in F1, F2. split; [ lia | ].
  rewrite N. destruct (nth_error TIERS (S i)); [ | reflexivity ].
  destruct (Qlt_le_dec _ (inject_Z n)); reflexivity.
Qed.

Lemma recommendCommitTier_above (spend : Q) :
  250000000 < spend -> recommendCommitTier TIERS spend = Some 250000000%Z.
Proof.
  intros H. unfold recommendCommitTier, current_position.
  rewrite position_of_above; [ reflexivity | ].
  intros t I. apply TIERS_upper_range in I.
  destruct I as [_ I]. rewrite Zle_Qle in I.
  change (inject_Z 250000000) with 250000000 in I. lra.
Qed.

Lemma recommendCommitTier_monotone (a b : Z) :
  (0 <= a)%Z -> (a <= b)%Z ->
  exists ra rb : Z,
    recommendCommitTier TIERS (inject_Z a) = Some ra
    /\ recommendCommitTier TIERS (inject_Z b) = Some rb
    /\ (ra <= rb)%Z.
Proof.
  intros Ha Hab.
  destruct (Z_le_gt_dec b 250000000) as [Hb | Hb].
  - destruct (recommendCommitTier_whole a ltac:(lia)) as (i & ta & Ni & Fa & Ea).
    destruct (recommendCommitTier_whole b ltac:(lia)) as (j & tb & Nj & Fb & Eb).
    eexists _, _. split; [ exact Ea | ]. split; [ exact Eb | ].
    pose proof (bounds_ordered_In _ tb TIERS_bounds_ordered (nth_error_In _ _ Nj))
      as Bb.
    assert (Q : inject_Z a <= inject_Z b) by (rewrite <- Zle_Qle; exact Hab).
    destruct (lt_eq_lt_dec i j) as [[L | E] | G].
    + pose proof (tiers_apart _ TIERS_contiguous TIERS_bounds_ordered
                    i j ta tb Ni Nj L) as A.
      assert (Ua : (match nth_error (TIERS (A := Exact)) (S i) with
                    | Some nt =>
                        if Qlt_le_dec (inject_Z (upper ta) * 0.8) (inject_Z a)
                        then upper nt else upper ta
                    | None => upper ta
                    end <= upper tb)%Z).
      { destruct (nth_error TIERS (S i)) as [na | ] eqn:Na; [ | lia ].
        destruct (Qlt_le_dec _ (inject_Z a)); [ | lia ].
        destruct (Nat.eq_dec (S i) j) as [<- | D].
        - rewrite Nj in Na. injection Na as <-. lia.
        - pose proof (tiers_apart _ TIERS_contiguous TIERS_bounds_ordered
                        (S i) j na tb Na Nj ltac:(lia)). lia. }
      assert (Ub : (upper tb
                    <= match nth_error (TIERS (A := Exact)) (S j) with
                       | Some nt =>
                           if Qlt_le_dec (inject_Z (upper tb) * 0.8) (inject_Z b)
                           then upper nt else upper tb
                       | None => upper tb
                       end)%Z).
      { destruct (nth_error TIERS (S j)) as [nb | ] eqn:Nb; [ | lia ].
        destruct (Qlt_le_dec _ (inject_Z b)); [ | lia ].
        pose proof (next_upper_above _ TIERS_contiguous TIERS_bounds_ordered
                      j tb nb Nj Nb). lia. }
      lia.
    + subst j. rewrite Ni in Nj. injection Nj as <-.
      destruct (nth_error TIERS (S i)) as [nt | ] eqn:N; [ | lia ].
      pose proof (next_upper_above _ TIERS_contiguous TIERS_bounds_ordered
                    i ta nt Ni N) as U.
      destruct (Qlt_le_dec _ (inject_Z a)); destruct (Qlt_le_dec _ (inject_Z b));
        try lia.
      exfalso. lra.
    + pose proof (tiers_apart _ TIERS_contiguous TIERS_bounds_ordered
                    j i tb ta Nj Ni G). lia.
  - destruct (recommendCommitTier_upper (inject_Z a)) as (t & I & Ea).
    exists (upper t), 250000000%Z. split; [ exact Ea | ]. split.
    + apply recommendCommitTier_above.
      change 250000000 with (inject_Z 250000000). rewrite <- Zlt_Qlt. lia.
    + apply TIERS_upper_range in I. lia.
Qed.

(** Along whole spends from 0 on the recommendation never goes down:
    for whole [0 <= a <= b] the recommendation for [a] is at most the one
    for [b]. *)
Theorem recommend_commit_tier_monotone (a b : Z) :
  (0 <= a)%Z -> (a <= b)%Z ->
  exists ra rb : Z,
    recommend_commit_tier calculator (inject_Z a) = Returns ra
    /\ recommend_commit_tier calculator (inject_Z b) = Returns rb
    /\ (ra <= rb)%Z.
Proof.
  intros Ha Hab.
  destruct (recommendCommitTier_monotone a b Ha Hab) as (ra & rb & Ea & Eb & L).
  exists ra, rb.
  rewrite !(recommend_commit_tier_refines calculator _ TIERS_sorted_ascending).
  change (tiers calculator) with (TIERS (A := Exact)).
  rewrite Ea, Eb. repeat split; [ exact L ].
Qed.

Lemma recommend_commit_tier_monotone_witness :
  exists ra rb : Z,
    recommend_commit_tier calculator (inject_Z 110000) = Returns ra
    /\ recommend_commit_tier calculator (inject_Z 500000) = Returns rb
    /\ (ra <= rb)%Z.
Proof. apply (recommend_commit_tier_monotone 110000 500000); lia. Defined.
